(** * generate_site.py: a static news archive generator

    A shallow embedding of [generate_site.py] and the properties of its
    loader, path resolver, page renderer and orchestrator.

    Conventions of the embedding.
    - A Python [str] is a [string] holding its UTF-8 bytes, a lone
      surrogate (which [json.load] reads from an escape such as [\ud800])
      being held in the generalised form [ED A0..BF xx].  Every string
      operation of the script ([endswith], [replace], the stem of a file
      name, equality) acts on ASCII delimiters and is the same on bytes
      as on code points; [len] and iteration count code points and are
      written out as such ([codepoints]).
    - A value produced by [json.load] is a [json]: [None], [bool], [int]
      (unbounded, [Z]), [float] (binary64), [str], [list], and [dict] with
      string keys in insertion order.
    - A raised exception is a [Raise e] result; an f-string is the list of
      its pieces, literal text ([Lit]) and interpolated values ([Val]), the
      text of a value being what [str()] prints for it.
    - The file system below [content/] is the list of [(root, files)]
      pairs that [os.walk] yields, each file with the outcome of opening
      and parsing it; the files written are collected in order.  Creating
      a directory and opening a file for writing are taken to succeed;
      writing a text fails when the text cannot be encoded as UTF-8. *)

From Stdlib Require Import List String Ascii ZArith Bool Lia.
From Stdlib Require Import DecimalString.
From Stdlib Require Import Permutation Sorted.
From Stdlib Require Import PrimFloat SpecFloat FloatOps.
Import ListNotations.
Open Scope string_scope.
Open Scope Z_scope.
Open Scope list_scope.

Set Warnings "-register-all".

(** ** Python values *)

Inductive json : Type :=
| JNull
| JBool (b : bool)
| JInt (n : Z)
| JFloat (x : float)
| JStr (s : string)
| JArr (l : list json)
| JObj (kv : list (string * json)).

Inductive exn : Type :=
| AttributeError
| TypeError
| ValueError
| UnicodeEncodeError.

Inductive result (A : Type) : Type :=
| Ok (a : A)
| Raise (e : exn).
Arguments Ok {A} a.
Arguments Raise {A} e.

Definition bind {A B} (r : result A) (k : A -> result B) : result B :=
  match r with
  | Ok a => k a
  | Raise e => Raise e
  end.

Notation "x <- r ;; k" := (bind r (fun x => k))
  (at level 61, r at next level, right associativity).

Fixpoint mapM {A B} (f : A -> result B) (l : list A) : result (list B) :=
  match l with
  | [] => Ok []
  | a :: l' => b <- f a ;; bs <- mapM f l' ;; Ok (b :: bs)
  end.

(** ** Calendar dates: [datetime.date] *)

Record pydate : Type := mkdate { year : Z; month : Z; day : Z }.

Definition is_leap (y : Z) : bool :=
  ((y mod 4 =? 0) && negb (y mod 100 =? 0)) || (y mod 400 =? 0).

Definition days_in_month (y m : Z) : Z :=
  if m =? 2 then (if is_leap y then 29 else 28)
  else if (m =? 4) || (m =? 6) || (m =? 9) || (m =? 11) then 30
  else 31.

(** The check of the [date(year, month, day)] constructor. *)
Definition valid_date (d : pydate) : bool :=
  (1 <=? year d) && (year d <=? 9999) &&
  (1 <=? month d) && (month d <=? 12) &&
  (1 <=? day d) && (day d <=? days_in_month (year d) (month d)).

(** Dates compare as the triples (year, month, day). *)
Definition date_compare (a b : pydate) : comparison :=
  match year a ?= year b with
  | Eq => match month a ?= month b with
          | Eq => day a ?= day b
          | c => c
          end
  | c => c
  end.

Definition date_ltb (a b : pydate) : bool :=
  match date_compare a b with Lt => true | _ => false end.

Definition date_eqb (a b : pydate) : bool :=
  match date_compare a b with Eq => true | _ => false end.

Definition date_lt (a b : pydate) : Prop := date_ltb a b = true.
Definition date_le (a b : pydate) : Prop := date_ltb b a = false.

(** ** Characters and decimal numerals *)

Definition is_digit (c : ascii) : bool :=
  let n := Z.of_nat (nat_of_ascii c) in (48 <=? n) && (n <=? 57).

Definition digit_val (c : ascii) : Z := Z.of_nat (nat_of_ascii c) - 48.

(** [int(s)] for a string of ASCII digits. *)
Definition digits_val (l : list ascii) : Z :=
  fold_left (fun acc c => 10 * acc + digit_val c) l 0.

Definition in_range (c : ascii) (lo hi : Z) : bool :=
  let n := digit_val c in is_digit c && (lo <=? n) && (n <=? hi).

(** ** [datetime.strptime(s, '%Y-%m-%d').date()]

    The format compiles to the regular expression
    [(\d\d\d\d)-(1[0-2]|0[1-9]|[1-9])-(3[0-1]|[1-2]\d|0[1-9]|[1-9]| [1-9])],
    which must match the whole string; the fields then go through the
    [date] constructor.  [None] stands for the [ValueError] raised
    otherwise.  ([\d] is taken over the ASCII digits.) *)

Definition month_field (l : list ascii) : option Z :=
  match l with
  | [a; b] =>
      if (Ascii.eqb a "1" && in_range b 0 2) || (Ascii.eqb a "0" && in_range b 1 9)
      then Some (digits_val l) else None
  | [a] => if in_range a 1 9 then Some (digit_val a) else None
  | _ => None
  end.

Definition day_field (l : list ascii) : option Z :=
  match l with
  | [a; b] =>
      if (Ascii.eqb a "3" && in_range b 0 1) || (in_range a 1 2 && is_digit b)
         || (Ascii.eqb a "0" && in_range b 1 9)
      then Some (digits_val l)
      else if Ascii.eqb a " " && in_range b 1 9 then Some (digit_val b)
      else None
  | [a] => if in_range a 1 9 then Some (digit_val a) else None
  | _ => None
  end.

(** The text up to the first ["-"], and what follows it. *)
Fixpoint split_dash (l : list ascii) : option (list ascii * list ascii) :=
  match l with
  | [] => None
  | c :: l' =>
      if Ascii.eqb c "-" then Some ([], l')
      else match split_dash l' with
           | Some (a, b) => Some (c :: a, b)
           | None => None
           end
  end.

Definition strptime_ymd (s : string) : option pydate :=
  match list_ascii_of_string s with
  | y1 :: y2 :: y3 :: y4 :: dash :: rest =>
      if forallb is_digit [y1; y2; y3; y4] && Ascii.eqb dash "-" then
        match split_dash rest with
        | Some (m, d) =>
            match month_field m, day_field d with
            | Some mv, Some dv =>
                let r := mkdate (digits_val [y1; y2; y3; y4]) mv dv in
                if valid_date r then Some r else None
            | _, _ => None
            end
        | None => None
        end
      else None
  | _ => None
  end.

(** ** Paths and file names *)

(** A path is the list of its components. *)
Definition path : Type := list string.

Definition CONTENT_DIR : path := ["content"].
Definition PUBLIC_DIR : path := ["public"].

(** [s.endswith(suffix)] *)
Definition endswith (s suffix : string) : bool :=
  let n := String.length s in
  let m := String.length suffix in
  (m <=? n)%nat && String.eqb (substring (n - m) m s) suffix.

(** [s.rfind('.')]: the index of the last dot. *)
Fixpoint rfind_dot (l : list ascii) (i : nat) (last : option nat) : option nat :=
  match l with
  | [] => last
  | c :: l' => rfind_dot l' (S i) (if Ascii.eqb c "." then Some i else last)
  end.

(** [Path.stem]: the name without its last suffix; a dot that starts or
    ends the name does not start a suffix. *)
Definition stem (name : string) : string :=
  match rfind_dot (list_ascii_of_string name) 0%nat None with
  | Some i =>
      if (0 <? i)%nat && (i <? String.length name - 1)%nat
      then substring 0 i name else name
  | None => name
  end.

(** ** The content tree *)

(** What [open] followed by [json.load] does on a file: it returns a
    value, raises a [ValueError] ([UnicodeDecodeError] and
    [json.JSONDecodeError] are subclasses of it), or raises another
    [Exception] ([OSError] when the file cannot be read). *)
Inductive loaded : Type :=
| Loads (content : json)
| LoadValueError
| LoadException.

(** What [os.walk(CONTENT_DIR)] yields: directories in traversal order,
    each with the names of its files. *)
Definition walk : Type := list (path * list (string * loaded)).

(** The lines printed on standard output. *)
Inductive line : Type :=
| SkippingInvalidDate (file_path : path)
| ErrorReading (file_path : path)
| NoDataFound
| Generated (output_file : path).

Record news_day : Type := mkday {
  date : pydate;
  content : json;
  file_path : path
}.

(** ** [load_data] *)

(** [list.sort(key=lambda x: x['date'], reverse=True)]: a stable sort,
    equal dates keep their order. *)
Fixpoint insert_desc (x : news_day) (l : list news_day) : list news_day :=
  match l with
  | [] => [x]
  | y :: l' =>
      if date_ltb (date x) (date y) then y :: insert_desc x l' else x :: l
  end.

Definition sort_desc (l : list news_day) : list news_day :=
  fold_right insert_desc [] l.

(** The body of the two nested loops, for one file of one directory. *)
Definition load_file (root : path) (f : string * loaded)
    (st : list news_day * list line) : list news_day * list line :=
  let '(news_data, out) := st in
  let '(file, body) := f in
  if endswith file ".json" then
    let file_path := root ++ [file] in
    match strptime_ymd (stem file) with
    | None => (news_data, out ++ [SkippingInvalidDate file_path])
    | Some date_obj =>
        match body with
        | Loads content => (news_data ++ [mkday date_obj content file_path], out)
        | LoadValueError => (news_data, out ++ [SkippingInvalidDate file_path])
        | LoadException => (news_data, out ++ [ErrorReading file_path])
        end
    end
  else st.

Definition scan (w : walk) (st : list news_day * list line)
    : list news_day * list line :=
  fold_left (fun st rf => fold_left (fun st f => load_file (fst rf) f st) (snd rf) st)
            w st.

(** [load_data] returns the sorted records; the second component is what
    it printed. *)
Definition load_data (w : walk) : list news_day * list line :=
  let '(news_data, out) := scan w ([], []) in
  (sort_desc news_data, out).

(** ** Operations on values *)

(** Truth value, as tested by [not x] and [if x]. *)
Definition truthy (v : json) : bool :=
  match v with
  | JNull => false
  | JBool b => b
  | JInt n => negb (n =? 0)
  | JFloat x => negb (PrimFloat.eqb x 0%float)
  | JStr s => negb (String.eqb s "")
  | JArr l => match l with [] => false | _ => true end
  | JObj kv => match kv with [] => false | _ => true end
  end.

(** [entry.get(key, default)]: defined on a [dict] only. *)
Fixpoint lookup (key : string) (kv : list (string * json)) : option json :=
  match kv with
  | [] => None
  | (k, v) :: kv' => if String.eqb k key then Some v else lookup key kv'
  end.

Definition dict_get (kv : list (string * json)) (key : string) (default : json) : json :=
  match lookup key kv with
  | Some v => v
  | None => default
  end.

Definition py_get (entry : json) (key : string) (default : json) : result json :=
  match entry with
  | JObj kv => Ok (dict_get kv key default)
  | _ => Raise AttributeError
  end.

(** A byte that starts a code point: not of the form [10xxxxxx]. *)
Definition is_lead (c : ascii) : bool :=
  let n := nat_of_ascii c in negb ((128 <=? n)%nat && (n <? 192)%nat).

(** The code points of a string, each with its continuation bytes. *)
Fixpoint codepoints_aux (l : list ascii) (cur : option string) : list string :=
  match l with
  | [] => match cur with Some s => [s] | None => [] end
  | c :: l' =>
      if is_lead c then
        match cur with
        | Some s => s :: codepoints_aux l' (Some (String c ""))
        | None => codepoints_aux l' (Some (String c ""))
        end
      else
        match cur with
        | Some s => codepoints_aux l' (Some (s ++ String c "")%string)
        | None => codepoints_aux l' (Some (String c ""))
        end
  end.

Definition codepoints (s : string) : list string :=
  codepoints_aux (list_ascii_of_string s) None.

(** [for entry in content]: a list yields its elements, a dict its keys, a
    string its characters; nothing else can be iterated. *)
Definition py_iter (v : json) : result (list json) :=
  match v with
  | JArr l => Ok l
  | JObj kv => Ok (map (fun p => JStr (fst p)) kv)
  | JStr s => Ok (map JStr (codepoints s))
  | _ => Raise TypeError
  end.

(** [len(v)] *)
Definition py_len (v : json) : result Z :=
  match v with
  | JArr l => Ok (Z.of_nat (List.length l))
  | JObj kv => Ok (Z.of_nat (List.length kv))
  | JStr s => Ok (Z.of_nat (List.length (codepoints s)))
  | _ => Raise TypeError
  end.

(** Lists and dicts cannot be dictionary keys. *)
Definition hashable (v : json) : bool :=
  match v with
  | JArr _ | JObj _ => false
  | _ => true
  end.

(** [n == x] for an int and a float: exact, no rounding. *)
Definition int_float_eqb (n : Z) (x : float) : bool :=
  match Prim2SF x with
  | S754_zero _ => n =? 0
  | S754_finite s m e =>
      let v := if s then Z.neg m else Z.pos m in
      if 0 <=? e then n =? v * 2 ^ e else n * 2 ^ (- e) =? v
  | _ => false
  end.

Definition int_of_bool (b : bool) : Z := if b then 1 else 0.

(** Equality of dictionary keys: numbers compare by value across [bool],
    [int] and [float]; the [nan] of the JSON decoder is a single object and
    is found again by identity. *)
Definition key_eqb (a b : json) : bool :=
  match a, b with
  | JNull, JNull => true
  | JStr s, JStr t => String.eqb s t
  | JBool x, JBool y => Bool.eqb x y
  | JBool x, JInt n | JInt n, JBool x => int_of_bool x =? n
  | JInt n, JInt m => n =? m
  | JBool x, JFloat y | JFloat y, JBool x => int_float_eqb (int_of_bool x) y
  | JInt n, JFloat y | JFloat y, JInt n => int_float_eqb n y
  | JFloat x, JFloat y => PrimFloat.eqb x y || (PrimFloat.is_nan x && PrimFloat.is_nan y)
  | _, _ => false
  end.

(** ** Printing integers *)

(** [str(n)] *)
Definition str_int (n : Z) : string := NilZero.string_of_int (Z.to_int n).

Fixpoint zeros (k : nat) : string :=
  match k with
  | O => ""
  | S k' => String "0" (zeros k')
  end.

(** [format(n, '0wd')]: zero padding to width [w], after the sign. *)
Definition zfill (w : nat) (n : Z) : string :=
  if n <? 0 then
    let d := str_int (- n) in
    (String "-" (zeros (w - 1 - String.length d)) ++ d)%string
  else
    let d := str_int n in (zeros (w - String.length d) ++ d)%string.

(** ** [datetime.fromisoformat] and [format_time] *)

Record datetime : Type := mkdatetime {
  dt_date : pydate;
  hour : Z;
  minute : Z;
  second : Z;
  microsecond : Z;
  utcoffset : option Z   (* microseconds east of UTC, when aware *)
}.

(** [datetime.fromisoformat] is the parser of CPython 3.11
    ([Modules/_datetimemodule.c]), which works on the UTF-8 bytes of the
    string, a NUL byte after the last one.  The functions below follow the
    C functions of the same names; a position is an index into the
    buffer, and [None] stands for a negative return code. *)

(** A lone surrogate, which [json.load] produces from an escape such as
    [\ud800], is held as the three bytes [ED A0..BF xx] of its generalised
    UTF-8 form. *)
Definition is_surrogate (cp : string) : bool :=
  match list_ascii_of_string cp with
  | a :: b :: _ => ((nat_of_ascii a =? 237) && (160 <=? nat_of_ascii b))%nat
  | _ => false
  end.

Definition has_surrogate (s : string) : bool := existsb is_surrogate (codepoints s).

Definition byte_at (buf : list ascii) (p : nat) : ascii := nth p buf Ascii.zero.

Definition is_nul (c : ascii) : bool := Ascii.eqb c Ascii.zero.

Fixpoint parse_digits (buf : list ascii) (p num_digits : nat) (var : Z) : option (Z * nat) :=
  match num_digits with
  | O => Some (var, p)
  | S n =>
      let c := byte_at buf p in
      if is_digit c then parse_digits buf (S p) n (10 * var + digit_val c) else None
  end.

(** [while (is_digit( *p )) ++p] *)
Fixpoint skip_digits (l : list ascii) (p : nat) : nat :=
  match l with
  | c :: l' => if is_digit c then skip_digits l' (S p) else p
  | [] => p
  end.

(** Days before 1 January of [y], and the ordinal of a date, 0001-01-01
    being day 1. *)
Definition days_before_year (y : Z) : Z :=
  let y := y - 1 in y * 365 + y / 4 - y / 100 + y / 400.

Definition days_before_month (y m : Z) : Z :=
  nth (Z.to_nat m) [0; 0; 31; 59; 90; 120; 151; 181; 212; 243; 273; 304; 334] 0
  + (if (2 <? m) && is_leap y then 1 else 0).

Definition ymd_to_ord (y m d : Z) : Z :=
  days_before_year y + days_before_month y m + d.

Definition weekday (y m d : Z) : Z := (ymd_to_ord y m d + 6) mod 7.

Definition DI400Y : Z := 146097.
Definition DI100Y : Z := 36524.
Definition DI4Y : Z := 1461.

Definition ord_to_ymd (ordinal : Z) : pydate :=
  let ordinal := ordinal - 1 in
  let n400 := ordinal / DI400Y in
  let n := ordinal mod DI400Y in
  let n100 := n / DI100Y in
  let n := n mod DI100Y in
  let n4 := n / DI4Y in
  let n := n mod DI4Y in
  let n1 := n / 365 in
  let n := n mod 365 in
  let y := n400 * 400 + 1 + n100 * 100 + n4 * 4 + n1 in
  if (n1 =? 4) || (n100 =? 4) then mkdate (y - 1) 12 31
  else
    let leapyear := (n1 =? 3) && (negb (n4 =? 24) || (n100 =? 3)) in
    let m := Z.shiftr (n + 50) 5 in
    let preceding := nth (Z.to_nat m) [0; 0; 31; 59; 90; 120; 151; 181; 212; 243; 273; 304; 334] 0
                     + (if (2 <? m) && leapyear then 1 else 0) in
    if n <? preceding then
      let m := m - 1 in
      mkdate y m (n - (preceding - days_in_month y m) + 1)
    else mkdate y m (n - preceding + 1).

Definition iso_week1_monday (y : Z) : Z :=
  let first_day := ymd_to_ord y 1 1 in
  let first_weekday := (first_day + 6) mod 7 in
  let week1_monday := first_day - first_weekday in
  if 3 <? first_weekday then week1_monday + 7 else week1_monday.

(** The year [0000] is refused here, where the arithmetic of the C code
    (truncating division) leaves the calendar; it goes on to a date that
    the constructor refuses. *)
Definition iso_to_ymd (iso_year iso_week iso_day : Z) : option pydate :=
  let long_year :=
    let first_weekday := weekday iso_year 1 1 in
    (first_weekday =? 3) || ((first_weekday =? 2) && is_leap iso_year) in
  if iso_year <=? 0 then None
  else if ((iso_week <=? 0) || (53 <=? iso_week)) && negb ((iso_week =? 53) && long_year)
  then None
  else if (iso_day <=? 0) || (8 <=? iso_day) then None
  else
    let day_1 := iso_week1_monday iso_year in
    let day_offset := (iso_week - 1) * 7 + iso_day - 1 in
    Some (ord_to_ymd (day_1 + day_offset)).

(** Where the date ends: [YYYY-MM-DD] (10), [YYYYMMDD] (8), [YYYY-Www]
    (8), [YYYYWww] (7), [YYYY-Www-d] (10), [YYYYWwwd] (8). *)
Definition find_isoformat_datetime_separator (dtstr : list ascii) : option nat :=
  let len := List.length dtstr in
  if (len =? 7)%nat then Some 7%nat
  else if Ascii.eqb (byte_at dtstr 4) "-" then
    if Ascii.eqb (byte_at dtstr 5) "W" then
      if (len <? 8)%nat then None
      else if (8 <? len)%nat && Ascii.eqb (byte_at dtstr 8) "-" then
        if (len =? 9)%nat then None
        else if (10 <? len)%nat && is_digit (byte_at dtstr 10) then Some 8%nat
        else Some 10%nat
      else Some 8%nat
    else Some 10%nat
  else if Ascii.eqb (byte_at dtstr 4) "W" then
    let idx := skip_digits (skipn 7 dtstr) 7 in
    if (idx <? 9)%nat then Some idx
    else if Nat.even idx then Some 7%nat
    else Some 8%nat
  else Some 8%nat.

Definition parse_isoformat_date (dtstr : list ascii) (len : nat) : option pydate :=
  match parse_digits dtstr 0 4 0 with
  | None => None
  | Some (y, p) =>
      let uses_separator := Ascii.eqb (byte_at dtstr p) "-" in
      let p := if uses_separator then S p else p in
      if Ascii.eqb (byte_at dtstr p) "W" then
        match parse_digits dtstr (S p) 2 0 with
        | None => None
        | Some (iso_week, p) =>
            if (p <? len)%nat then
              if uses_separator && negb (Ascii.eqb (byte_at dtstr p) "-") then None
              else
                match parse_digits dtstr (if uses_separator then S p else p) 1 0 with
                | None => None
                | Some (iso_day, _) => iso_to_ymd y iso_week iso_day
                end
            else iso_to_ymd y iso_week 1
        end
      else
        match parse_digits dtstr p 2 0 with
        | None => None
        | Some (m, p) =>
            if uses_separator && negb (Ascii.eqb (byte_at dtstr p) "-") then None
            else
              match parse_digits dtstr (if uses_separator then S p else p) 2 0 with
              | None => None
              | Some (d, _) => Some (mkdate y m d)
              end
        end
  end.

(** The loop over hours, minutes and seconds: the fields read, the
    position reached, and the return code when the loop returns. *)
Fixpoint time_fields (buf : list ascii) (p_end : nat) (left : nat) (first has_separator : bool)
    (p : nat) (vals : list Z) : option (list Z * nat * option bool) :=
  match left with
  | O => Some (vals, p, None)
  | S left' =>
      match parse_digits buf p 2 0 with
      | None => None
      | Some (v, p1) =>
          let c := byte_at buf p1 in
          let p2 := S p1 in
          let has_separator := if first then Ascii.eqb c ":" else has_separator in
          let vals := vals ++ [v] in
          if (p_end <=? p2)%nat then Some (vals, p2, Some (negb (is_nul c)))
          else if has_separator && Ascii.eqb c ":" then
            time_fields buf p_end left' false has_separator p2 vals
          else if Ascii.eqb c "." || Ascii.eqb c "," then Some (vals, p2, None)
          else if negb has_separator then
            time_fields buf p_end left' false has_separator p1 vals
          else None
      end
  end.

(** [HH[:?MM[:?SS[{.,}f+]]]] up to [p_end]; the flag tells that the
    buffer goes on after what was read. *)
Definition parse_hh_mm_ss_ff (buf : list ascii) (p_end : nat) : option (Z * Z * Z * Z * bool) :=
  match time_fields buf p_end 3 true true 0 [] with
  | None => None
  | Some (vals, p, ret) =>
      let h := nth 0 vals 0 in
      let m := nth 1 vals 0 in
      let sec := nth 2 vals 0 in
      match ret with
      | Some rv => Some (h, m, sec, 0, rv)
      | None =>
          let len_remains := (p_end - p)%nat in
          let to_parse := Nat.min len_remains 6 in
          match parse_digits buf p to_parse 0 with
          | None => None
          | Some (us, p) =>
              let us := us * 10 ^ (6 - Z.of_nat to_parse) in
              let p := skip_digits (skipn p buf) p in
              Some (h, m, sec, us, negb (is_nul (byte_at buf p)))
          end
      end
  end.

Definition is_tz_char (c : ascii) : bool :=
  Ascii.eqb c "Z" || Ascii.eqb c "+" || Ascii.eqb c "-".

Fixpoint find_tzinfo (l : list ascii) : nat :=
  match l with
  | c :: l' => if is_tz_char c then O else S (find_tzinfo l')
  | [] => O
  end.

(** The time of day and the offset, in seconds and microseconds. *)
Definition parse_isoformat_time (dtstr : list ascii)
  : option (Z * Z * Z * Z * option (Z * Z)) :=
  let p_end := List.length dtstr in
  let tzinfo_pos := find_tzinfo dtstr in
  match parse_hh_mm_ss_ff dtstr tzinfo_pos with
  | None => None
  | Some (h, m, sec, us, rv) =>
      if (tzinfo_pos =? p_end)%nat then
        if rv then None else Some (h, m, sec, us, None)
      else if Ascii.eqb (byte_at dtstr tzinfo_pos) "Z" then
        if is_nul (byte_at dtstr (S tzinfo_pos)) then Some (h, m, sec, us, Some (0, 0))
        else None
      else
        let tzsign := if Ascii.eqb (byte_at dtstr tzinfo_pos) "-" then -1 else 1 in
        let tzstr := skipn (S tzinfo_pos) dtstr in
        match parse_hh_mm_ss_ff tzstr (List.length tzstr) with
        | Some (tzhour, tzminute, tzsecond, tzus, false) =>
            Some (h, m, sec, us,
                  Some (tzsign * (tzhour * 3600 + tzminute * 60 + tzsecond), tzsign * tzus))
        | _ => None
        end
  end.

(** The separator may be a surrogate: the first one found at the code
    points 7, 8 and 10 becomes a [T]; any other makes the string
    unencodable, hence invalid. *)
Fixpoint replace_at (pos : nat) (cps : list string) : list string :=
  match pos, cps with
  | O, _ :: cps' => "T" :: cps'
  | S pos', cp :: cps' => cp :: replace_at pos' cps'
  | _, [] => []
  end.

Fixpoint sanitize_at (positions : list nat) (cps : list string) : list string :=
  match positions with
  | [] => cps
  | pos :: positions' =>
      if (List.length cps <? pos)%nat then cps
      else if is_surrogate (nth pos cps "") then replace_at pos cps
      else sanitize_at positions' cps
  end.

Definition sanitize_isoformat_str (dtstr : string) : option string :=
  let cps := codepoints dtstr in
  if (List.length cps <? 7)%nat then None
  else Some (String.concat "" (sanitize_at [7; 8; 10]%nat cps)).

(** The width of the code point that starts with [c]. *)
Definition utf8_width (c : ascii) : nat :=
  let n := nat_of_ascii c in
  if (n <? 128)%nat then 1%nat
  else if (n / 16 =? 14)%nat then 3%nat
  else if (n / 16 =? 15)%nat then 4%nat
  else 2%nat.

(** The checks of the [datetime] constructor on the time of day, and of
    [timezone] on the offset: strictly within a day.  An offset of zero
    seconds is UTC whatever its fraction. *)
Definition valid_time (h m sec : Z) : bool :=
  (h <? 24) && (m <? 60) && (sec <? 60).

Definition tzinfo_from_isoformat_results (tz : option (Z * Z)) : option (option Z) :=
  match tz with
  | None => Some None
  | Some (tzoffset, tz_useconds) =>
      if tzoffset =? 0 then Some (Some 0)
      else
        let off := tzoffset * 1000000 + tz_useconds in
        if (- (86400 * 1000000) <? off) && (off <? 86400 * 1000000) then Some (Some off)
        else None
  end.

(** [datetime.fromisoformat(s)]; [None] stands for the [ValueError]
    raised on an invalid string. *)
Definition fromisoformat (s : string) : option datetime :=
  match sanitize_isoformat_str s with
  | None => None
  | Some dtstr_clean =>
      if has_surrogate dtstr_clean then None
      else
        let dt := list_ascii_of_string dtstr_clean in
        let len := List.length dt in
        if (len <? 7)%nat then None
        else
          match find_isoformat_datetime_separator dt with
          | None => None
          | Some separator_location =>
              match parse_isoformat_date dt separator_location with
              | None => None
              | Some d =>
                  let time :=
                    if (separator_location <? len)%nat then
                      parse_isoformat_time
                        (skipn (separator_location
                                + utf8_width (byte_at dt separator_location)) dt)
                    else Some (0, 0, 0, 0, None) in
                  match time with
                  | None => None
                  | Some (h, m, sec, us, tz) =>
                      match tzinfo_from_isoformat_results tz with
                      | None => None
                      | Some off =>
                          if valid_date d && valid_time h m sec
                          then Some (mkdatetime d h m sec us off)
                          else None
                      end
                  end
              end
          end
  end.

(** [s.replace('Z', '+00:00')]: every occurrence. *)
Fixpoint replace_Z (s : string) : string :=
  match s with
  | EmptyString => ""
  | String c s' =>
      if Ascii.eqb c "Z" then ("+00:00" ++ replace_Z s')%string
      else String c (replace_Z s')
  end.

(** [dt.strftime('%H:%M')] *)
Definition strftime_HM (dt : datetime) : string :=
  (zfill 2 (hour dt) ++ ":" ++ zfill 2 (minute dt))%string.

(** The body of the [try]: [replace] exists on strings only. *)
Definition format_time_try (iso_time_str : json) : result json :=
  match iso_time_str with
  | JStr s =>
      match fromisoformat (replace_Z s) with
      | Some dt => Ok (JStr (strftime_HM dt))
      | None => Raise ValueError
      end
  | _ => Raise AttributeError
  end.

Definition format_time (iso_time_str : json) : json :=
  if negb (truthy iso_time_str) then JStr ""
  else match format_time_try iso_time_str with
       | Ok r => r
       | Raise _ => iso_time_str
       end.

(** ** The path resolver *)

(** [os.path.relpath(path, start)] on normalised paths below the same
    working directory: one [..] for each component of [start] after the
    common prefix, then the rest of [path]. *)
Fixpoint relpath_list (path start : list string) : list string :=
  match path, start with
  | p :: path', c :: start' =>
      if String.eqb p c then relpath_list path' start'
      else repeat ".." (List.length start) ++ path
  | _, _ => repeat ".." (List.length start) ++ path
  end.

Definition relpath (path start : path) : string :=
  match relpath_list path start with
  | [] => "."
  | l => String.concat "/" l
  end.

(** [from_path.parent] *)
Definition parent (p : path) : path := removelast p.

Definition get_relative_path (from_path to_path : path) : string :=
  relpath to_path (parent from_path).

(** The source returns [None] on [None]; both calls are guarded by
    [if next_date] and [if previous_date] and pass a date. *)
Definition get_daily_path (date_obj : pydate) : path :=
  PUBLIC_DIR ++ [str_int (year date_obj); zfill 2 (month date_obj);
                 (zfill 2 (day date_obj) ++ ".html")%string].

(** [str(date_obj)]: the year on four digits. *)
Definition isoformat (d : pydate) : string :=
  (zfill 4 (year d) ++ "-" ++ zfill 2 (month d) ++ "-" ++ zfill 2 (day d))%string.

(** [date_obj.strftime('%Y-%m-%d')]: the C library prints the year
    without padding, [999-01-01] for a day of the year 999. *)
Definition strftime_Ymd (d : pydate) : string :=
  (str_int (year d) ++ "-" ++ zfill 2 (month d) ++ "-" ++ zfill 2 (day d))%string.

(** ** Pages *)

(** The text of the templates is written with a backquote wherever the
    page has a double quote. *)
Definition unquote (c : ascii) : ascii :=
  if Ascii.eqb c "`" then ascii_of_nat 34 else c.

Fixpoint text (s : string) : string :=
  match s with
  | EmptyString => ""
  | String c s' => String (unquote c) (text s')
  end.

(** A formatted string: literal text and interpolated values, in order. *)
Inductive piece : Type :=
| Lit (s : string)
| Val (v : json).

Definition html : Type := list piece.

Definition generate_navbar (relative_root : string) : string :=
  (text "
    <nav class=`navbar navbar-expand-lg navbar-dark bg-primary mb-4`>
        <div class=`container`>
            <a class=`navbar-brand` href=`" ++ relative_root
   ++ text "/index.html`>News Morning Paper</a>
        </div>
    </nav>
    ")%string.

(** *** The daily page *)

Definition item_card (link title category source time body : json) : html :=
  [Lit (text "
        <div class=`col-md-12 mb-3`>
            <div class=`card news-card h-100`>
                <div class=`card-body`>
                    <div class=`d-flex justify-content-between align-items-start`>
                        <h5 class=`card-title text-primary`><a href=`");
   Val link;
   Lit (text "` target=`_blank` class=`text-decoration-none`>");
   Val title;
   Lit (text "</a></h5>
                        <span class=`badge bg-secondary`>");
   Val category;
   Lit (text "</span>
                    </div>
                    <h6 class=`card-subtitle mb-2 text-muted`>");
   Val source;
   Lit " - ";
   Val time;
   Lit (text "</h6>
                    <p class=`card-text`>");
   Val body;
   Lit (text "</p>
                </div>
            </div>
        </div>
        ")].

(** One turn of the loop of [generate_section_html]. *)
Definition item_html (item : json) : result html :=
  source <- py_get item "来源" (JStr "Unknown") ;;
  link <- py_get item "链接" (JStr "#") ;;
  title <- py_get item "标题" (JStr "No Title") ;;
  category <- py_get item "分类" (JStr "General") ;;
  time <- py_get item "发布时间" JNull ;;
  body <- py_get item "内容" (JStr "") ;;
  Ok (item_card link title category source (format_time time) body).

Definition section_frame (section_name : json) (items_html : html) : html :=
  [Lit (text "
    <div class=`row mb-5`>
        <div class=`col-12`>
            <h2 class=`section-header`>");
   Val section_name;
   Lit (text "</h2>
            <div class=`row`>
                ")]
  ++ items_html ++
  [Lit (text "
            </div>
        </div>
    </div>
    ")].

Definition generate_section_html (section_name : json) (items : list json)
    : result html :=
  items_html <- mapM item_html items ;;
  Ok (section_frame section_name (List.concat items_html)).

(** [sections[section].append(entry)] on an insertion-ordered dict. *)
Fixpoint add_to_section (sections : list (json * list json)) (section entry : json)
    : list (json * list json) :=
  match sections with
  | [] => [(section, [entry])]
  | (k, es) :: rest =>
      if key_eqb k section then (k, es ++ [entry]) :: rest
      else (k, es) :: add_to_section rest section entry
  end.

Definition group_step (sections : list (json * list json)) (entry : json)
    : result (list (json * list json)) :=
  section <- py_get entry "版块" (JStr "Uncategorized") ;;
  if hashable section then Ok (add_to_section sections section entry)
  else Raise TypeError.

Fixpoint group_entries (sections : list (json * list json)) (entries : list json)
    : result (list (json * list json)) :=
  match entries with
  | [] => Ok sections
  | entry :: rest =>
      sections' <- group_step sections entry ;; group_entries sections' rest
  end.

Definition group_by_section (content : json) : result (list (json * list json)) :=
  entries <- py_iter content ;; group_entries [] entries.

Definition relative_root : string := "../../..".

Definition nav_next (output_file : path) (next_date : option pydate) : string :=
  match next_date with
  | Some d =>
      (text "<a href=`" ++ get_relative_path output_file (get_daily_path d)
       ++ text "` class=`btn btn-outline-primary me-2`>&larr; Next Day</a>")%string
  | None => text "<button class=`btn btn-outline-secondary me-2` disabled>&larr; Next Day</button>"
  end.

Definition nav_previous (output_file : path) (previous_date : option pydate) : string :=
  match previous_date with
  | Some d =>
      (text "<a href=`" ++ get_relative_path output_file (get_daily_path d)
       ++ text "` class=`btn btn-outline-primary`>Previous Day &rarr;</a>")%string
  | None => text "<button class=`btn btn-outline-secondary` disabled>Previous Day &rarr;</button>"
  end.

Definition daily_frame (now_year : Z) (date_obj : pydate) (output_file : path)
    (previous_date next_date : option pydate) (sections_html : html) : html :=
  [Lit (text "<!DOCTYPE html>
<html lang=`zh-CN`>
<head>
    <meta charset=`UTF-8`>
    <meta name=`viewport` content=`width=device-width, initial-scale=1.0`>
    <title>");
   Lit (isoformat date_obj);
   Lit (text " News Morning Paper</title>
    <link href=`https://cdn.jsdelivr.net/npm/bootstrap@5.3.0/dist/css/bootstrap.min.css` rel=`stylesheet`>
    <style>
        .news-card { transition: transform 0.2s; }
        .news-card:hover { transform: translateY(-5px); box-shadow: 0 4px 15px rgba(0,0,0,0.1); }
        .section-header { border-left: 5px solid #0d6efd; padding-left: 10px; margin-bottom: 20px; }
    </style>
</head>
<body class=`bg-light`>
    ");
   Lit (generate_navbar relative_root);
   Lit (text "
    
    <div class=`container`>
        <div class=`d-flex justify-content-between align-items-center mb-4`>
            <h1>");
   Lit (strftime_Ymd date_obj);
   Lit (text " News</h1>
            <div>
                ");
   Lit (nav_next output_file next_date);
   Lit (text "
                ");
   Lit (nav_previous output_file previous_date);
   Lit (text "
            </div>
        </div>

        ")]
  ++ sections_html ++
  [Lit (text "
        
    </div>

    <footer class=`bg-dark text-white text-center py-3 mt-5`>
        <p>&copy; ");
   Lit (str_int now_year);
   Lit (text " News Morning Paper. All rights reserved.</p>
    </footer>

    <script src=`https://cdn.jsdelivr.net/npm/bootstrap@5.3.0/dist/js/bootstrap.bundle.min.js`></script>
</body>
</html>
")].

(** The page text built by [generate_daily_page]: grouping first, then
    the formatted string. *)
Definition daily_html (now_year : Z) (date_obj : pydate) (content : json)
    (output_file : path) (previous_date next_date : option pydate) : result html :=
  sections <- group_by_section content ;;
  sections_html <- mapM (fun ni => generate_section_html (fst ni) (snd ni)) sections ;;
  Ok (daily_frame now_year date_obj output_file previous_date next_date
        (List.concat sections_html)).

(** *** The index page *)

Definition daily_link (date_obj : pydate) : string :=
  (str_int (year date_obj) ++ "/" ++ zfill 2 (month date_obj) ++ "/"
   ++ zfill 2 (day date_obj) ++ ".html")%string.

Definition index_row (date_obj : pydate) (total_items : Z) : string :=
  (text "
        <a href=`" ++ daily_link date_obj
   ++ text "` class=`list-group-item list-group-item-action d-flex justify-content-between align-items-center`>
            <div>
                <h5 class=`mb-1`>" ++ strftime_Ymd date_obj
   ++ text "</h5>
                <small class=`text-muted`>" ++ str_int total_items
   ++ text " news items</small>
            </div>
            <span class=`badge bg-primary rounded-pill`>View &rarr;</span>
        </a>
        ")%string.

(** The loop of [generate_index] over [recent_news]. *)
Fixpoint index_rows (list_items : string) (recent_news : list news_day) : result string :=
  match recent_news with
  | [] => Ok list_items
  | item :: rest =>
      total_items <- py_len (content item) ;;
      index_rows (list_items ++ index_row (date item) total_items)%string rest
  end.

Definition no_data_row : string :=
  text "<div class=`list-group-item`>No news data found.</div>".

(** The index page around what fills its list. *)
Definition index_page (now_year : Z) (list_group : string) : string :=
  (text "<!DOCTYPE html>
<html lang=`zh-CN`>
<head>
    <meta charset=`UTF-8`>
    <meta name=`viewport` content=`width=device-width, initial-scale=1.0`>
    <title>News Morning Paper Archive</title>
    <link href=`https://cdn.jsdelivr.net/npm/bootstrap@5.3.0/dist/css/bootstrap.min.css` rel=`stylesheet`>
    <style>
        body { background-color: #f8f9fa; }
        .header-section { background: linear-gradient(135deg, #667eea 0%, #764ba2 100%); color: white; padding: 60px 0; margin-bottom: 40px; }
    </style>
</head>
<body>
    <div class=`header-section text-center`>
        <div class=`container`>
            <h1 class=`display-4`>News Morning Paper</h1>
            <p class=`lead`>Your daily dose of technology and industry updates.</p>
        </div>
    </div>
    
    <div class=`container`>
        <div class=`row justify-content-center`>
            <div class=`col-md-8`>
                <div class=`card shadow-sm`>
                    <div class=`card-header bg-white`>
                        <h4 class=`mb-0`>Recent Archives (Last 5 Days)</h4>
                    </div>
                    <div class=`list-group list-group-flush`>
                        "
   ++ list_group
   ++ text "
                    </div>
                </div>
            </div>
        </div>
    </div>

    <footer class=`text-center py-4 mt-5 text-muted`>
        <p>&copy; " ++ str_int now_year
   ++ text " News Morning Paper</p>
    </footer>

    <script src=`https://cdn.jsdelivr.net/npm/bootstrap@5.3.0/dist/js/bootstrap.bundle.min.js`></script>
</body>
</html>
")%string.

Definition index_frame (now_year : Z) (list_items : string) : string :=
  index_page now_year
    (if negb (String.eqb list_items "") then list_items else no_data_row).

Definition index_html (now_year : Z) (news_data : list news_day) : result string :=
  let recent_news := firstn 5 news_data in
  list_items <- index_rows "" recent_news ;;
  Ok (index_frame now_year list_items).

(** ** The writer and the orchestrator *)

(** The effects of a run on the output tree and on standard output, in
    order: directories ensured, files written with their text (a later
    write to a path replaces an earlier one), lines printed. *)
Record world : Type := mkworld {
  ensured : list path;
  written : list (path * html);
  stdout : list line
}.

Definition empty_world : world := mkworld [] [] [].

Definition run (A : Type) : Type := world -> result A * world.

Definition ret {A} (a : A) : run A := fun w => (Ok a, w).

Definition lift {A} (r : result A) : run A := fun w => (r, w).

Definition and_then {A B} (m : run A) (k : A -> run B) : run B :=
  fun w => match m w with
           | (Ok a, w') => k a w'
           | (Raise e, w') => (Raise e, w')
           end.

Notation "x <~ m ;; k" := (and_then m (fun x => k))
  (at level 61, m at next level, right associativity).
Notation "m ;;; k" := (and_then m (fun _ => k))
  (at level 61, right associativity).

Definition mkdir (p : path) : run unit :=
  fun w => (Ok tt, mkworld (ensured w ++ [p]) (written w) (stdout w)).

(** A text can be encoded as UTF-8 unless it holds a lone surrogate.
    Only a [str] shows one as it is: the text of a list or of a dict
    escapes it, as [repr] does. *)
Definition encodable_piece (p : piece) : bool :=
  match p with
  | Lit s => negb (has_surrogate s)
  | Val (JStr s) => negb (has_surrogate s)
  | Val _ => true
  end.

Definition encodable (h : html) : bool := forallb encodable_piece h.

(** [with open(p, 'w', encoding='utf-8') as f: f.write(h)]: opening
    creates the file or empties it; a text that cannot be encoded raises
    [UnicodeEncodeError] and leaves the file empty. *)
Definition write (p : path) (h : html) : run unit :=
  fun w =>
    if encodable h
    then (Ok tt, mkworld (ensured w) (written w ++ [(p, h)]) (stdout w))
    else (Raise UnicodeEncodeError,
          mkworld (ensured w) (written w ++ [(p, [])]) (stdout w)).

Definition print (l : line) : run unit :=
  fun w => (Ok tt, mkworld (ensured w) (written w) (stdout w ++ [l])).

Definition print_all (ls : list line) : run unit :=
  fun w => (Ok tt, mkworld (ensured w) (written w) (stdout w ++ ls)).

Fixpoint for_each {A} (l : list A) (body : A -> run unit) : run unit :=
  match l with
  | [] => ret tt
  | a :: l' => body a ;;; for_each l' body
  end.

Definition ensure_public_dir : run unit := mkdir PUBLIC_DIR.

Definition generate_daily_page (now_year : Z) (item : news_day)
    (previous_date next_date : option pydate) : run path :=
  let date_obj := date item in
  let year_dir := PUBLIC_DIR ++ [str_int (year date_obj)] in
  let month_dir := year_dir ++ [zfill 2 (month date_obj)] in
  mkdir month_dir ;;;
  let output_file := month_dir ++ [(zfill 2 (day date_obj) ++ ".html")%string] in
  html_content <~ lift (daily_html now_year date_obj (content item) output_file
                          previous_date next_date) ;;
  write output_file html_content ;;;
  print (Generated output_file) ;;;
  ret output_file.

Definition index_path : path := PUBLIC_DIR ++ ["index.html"].

Definition generate_index (now_year : Z) (news_data : list news_day) : run unit :=
  html_content <~ lift (index_html now_year news_data) ;;
  write index_path [Lit html_content] ;;;
  print (Generated index_path).

(** [enumerate(data)] *)
Definition enumerate {A} (l : list A) : list (Z * A) :=
  combine (map Z.of_nat (seq 0 (List.length l))) l.

(** [data[i]['date']] for an index within the list. *)
Definition date_at (data : list news_day) (i : Z) : option pydate :=
  option_map date (nth_error data (Z.to_nat i)).

(** The neighbours computed in the loop of [main]:
    [(prev_date, next_date)] for position [i]. *)
Definition neighbours (data : list news_day) (i : Z) : option pydate * option pydate :=
  let next_date := if 0 <? i then date_at data (i - 1) else None in
  let prev_date :=
    if i <? Z.of_nat (List.length data) - 1 then date_at data (i + 1) else None in
  (prev_date, next_date).

Definition main (now_year : Z) (tree : walk) : run unit :=
  ensure_public_dir ;;;
  let '(data, out) := load_data tree in
  print_all out ;;;
  match data with
  | [] => print NoDataFound
  | _ =>
      generate_index now_year data ;;;
      for_each (enumerate data) (fun ii =>
        let '(i, item) := ii in
        let '(prev_date, next_date) := neighbours data i in
        generate_daily_page now_year item prev_date next_date ;;; ret tt)
  end.

(** ** Vocabulary of the statements *)

(** The record a file gives rise to, when it is a [.json] file with a
    date for stem and a body that parses. *)
Definition record_of (root : path) (f : string * loaded) : list news_day :=
  if endswith (fst f) ".json" then
    match strptime_ymd (stem (fst f)), snd f with
    | Some d, Loads c => [mkday d c (root ++ [fst f])]
    | _, _ => []
    end
  else [].

(** What [load_data] prints for a file. *)
Definition lines_of (root : path) (f : string * loaded) : list line :=
  if endswith (fst f) ".json" then
    match strptime_ymd (stem (fst f)), snd f with
    | None, _ => [SkippingInvalidDate (root ++ [fst f])]
    | Some _, LoadValueError => [SkippingInvalidDate (root ++ [fst f])]
    | Some _, LoadException => [ErrorReading (root ++ [fst f])]
    | Some _, Loads _ => []
    end
  else [].

(** The records of the loadable files, in traversal order. *)
Definition loaded_records (tree : walk) : list news_day :=
  flat_map (fun rf => flat_map (record_of (fst rf)) (snd rf)) tree.

Definition diagnostics (tree : walk) : list line :=
  flat_map (fun rf => flat_map (lines_of (fst rf)) (snd rf)) tree.

(** Every file of the tree is a [.json] file whose stem is a date and
    whose body parses. *)
Definition all_files_valid (tree : walk) : Prop :=
  forall root files name body,
    In (root, files) tree -> In (name, body) files ->
    endswith name ".json" = true
    /\ strptime_ymd (stem name) <> None
    /\ exists c, body = Loads c.

Definition descending (l : list news_day) : Prop :=
  StronglySorted (fun a b => date_le (date b) (date a)) l.

Definition strictly_descending (l : list news_day) : Prop :=
  StronglySorted (fun a b => date_lt (date b) (date a)) l.

(** Exactly one record for each date found among the files. *)
Definition one_record_per_date (tree : walk) (dataset : list news_day) : Prop :=
  NoDup (map date dataset)
  /\ forall d, In d (map date dataset) <-> In d (map date (loaded_records tree)).

(** The records of a dataset that carry a given date, in order. *)
Definition on_date (d : pydate) (l : list news_day) : list news_day :=
  filter (fun r => date_eqb (date r) d) l.

(** Two directories holding a file of the same name. *)
Definition dup_tree : walk :=
  [(["content"; "a"], [("2024-01-02.json", Loads (JArr []))]);
   (["content"; "b"], [("2024-01-02.json", Loads (JArr [JObj []]))])].

(** A file that is not a [.json] file. *)
Definition txt_tree : walk := [(["content"], [("notes.txt", LoadException)])].

(** What [main] does once the data is loaded. *)
Definition publish (now_year : Z) (data : list news_day) : run unit :=
  match data with
  | [] => print NoDataFound
  | _ =>
      generate_index now_year data ;;;
      for_each (enumerate data) (fun ii =>
        let '(i, item) := ii in
        let '(prev_date, next_date) := neighbours data i in
        generate_daily_page now_year item prev_date next_date ;;; ret tt)
  end.






(** The index page was written. *)
Definition index_written (w : world) : Prop :=
  exists h, In (index_path, h) (written w).

(** A date of the year 999, from a file named [0999-01-01.json]. *)
Definition early_date : pydate := mkdate 999 1 1.

(** [s] is the decimal numeral of [n]: digits only, of value [n]. *)
Definition decimal (n : Z) (s : string) : bool :=
  let l := list_ascii_of_string s in
  forallb is_digit l && (digits_val l =? n).

(** The layout [<root>/<year>/<month>/<day>.html] with a year of four
    digits and a month and a day of two. *)
Definition four_two_two (p : path) (d : pydate) : Prop :=
  exists y m dd,
    p = PUBLIC_DIR ++ [y; m; (dd ++ ".html")%string]
    /\ decimal (year d) y = true /\ String.length y = 4%nat
    /\ decimal (month d) m = true /\ String.length m = 2%nat
    /\ decimal (day d) dd = true /\ String.length dd = 2%nat.

(** The number of digits of a year between 1 and 9999. *)
Definition year_width (y : Z) : nat :=
  if y <? 10 then 1 else if y <? 100 then 2 else if y <? 1000 then 3 else 4.

Definition zrange (lo n : Z) : list Z :=
  map (fun k => lo + Z.of_nat k) (seq 0 (Z.to_nat n)).

(** [s] with ["+00:00"] in the place of a ["Z"] that ends it. *)
Definition subst_trailing_Z (s : string) : string :=
  if endswith s "Z"
  then (substring 0 (String.length s - 1) s ++ "+00:00")%string
  else s.

(** The rendered time as C5 words it, for a field that is absent
    ([None]) or holds a value: empty when absent; [HH:MM] when the value
    parses after the substitution for a trailing ["Z"]; the raw value
    otherwise. *)
Definition time_as_claimed (field : option json) (rendered : json) : Prop :=
  match field with
  | None => rendered = JStr ""
  | Some (JStr s) =>
      match fromisoformat (subst_trailing_Z s) with
      | Some dt => rendered = JStr (strftime_HM dt)
      | None => rendered = JStr s
      end
  | Some v => rendered = v
  end.

(** The time rendered for an item, as [generate_section_html] computes
    it. *)
Definition rendered_time (kv : list (string * json)) : json :=
  format_time (dict_get kv "发布时间" JNull).

(** The value shown for a field: what the item holds under [key] when
    the key is present, the default text when it is absent. *)
Definition slot_of (kv : list (string * json)) (key default : string) (slot : json)
    : Prop :=
  match lookup key kv with
  | Some v => slot = v
  | None => slot = JStr default
  end.

(** The card of an item, from the values of its fields. *)
Definition card_of (kv : list (string * json)) : html :=
  item_card (dict_get kv "链接" (JStr "#")) (dict_get kv "标题" (JStr "No Title"))
            (dict_get kv "分类" (JStr "General")) (dict_get kv "来源" (JStr "Unknown"))
            (rendered_time kv) (dict_get kv "内容" (JStr "")).

(** The section an item is filed under. *)
Definition section_of (kv : list (string * json)) : json :=
  dict_get kv "版块" (JStr "Uncategorized").

(** [a] occurs in [h] as a run of consecutive pieces. *)
Definition infix_of (a h : html) : Prop :=
  exists pre post, h = pre ++ a ++ post.

(** The key [k] of a section stands for the section value [s]: it is
    that value, or a key equal to it that was there before. *)
Definition same_key (k s : json) : Prop :=
  k = s \/ key_eqb k s = true.

(** An entry that [generate_daily_page] can file and render: a dict whose
    section value can be a dictionary key. *)
Definition well_formed_entry (e : json) : Prop :=
  exists kv, e = JObj kv /\ hashable (section_of kv) = true.

(** Content that can be rendered: it can be iterated and its entries are
    well formed. *)
Definition renderable (content : json) : Prop :=
  exists entries, py_iter content = Ok entries /\ Forall well_formed_entry entries.



(** Where a relative link leads from a directory: [..] goes up, a name
    goes down. *)
Definition follow (dir : path) (rel : list string) : path :=
  fold_left (fun p c => if String.eqb c ".." then removelast p else p ++ [c]) rel dir.

(** The link [href] leads from the page [from_file] to the page of the
    date [d]. *)
Definition links_to (from_file : path) (href : string) (d : pydate) : Prop :=
  exists rel,
    rel <> [] /\ href = String.concat "/" rel
    /\ follow (parent from_file) rel = get_daily_path d.

Definition next_enabled (href : string) : string :=
  (text "<a href=`" ++ href
   ++ text "` class=`btn btn-outline-primary me-2`>&larr; Next Day</a>")%string.

Definition next_disabled : string :=
  text "<button class=`btn btn-outline-secondary me-2` disabled>&larr; Next Day</button>".

Definition previous_enabled (href : string) : string :=
  (text "<a href=`" ++ href
   ++ text "` class=`btn btn-outline-primary`>Previous Day &rarr;</a>")%string.

Definition previous_disabled : string :=
  text "<button class=`btn btn-outline-secondary` disabled>Previous Day &rarr;</button>".

(** Three days, newest first. *)
Definition three_days : list news_day :=
  [mkday (mkdate 2024 2 1) (JArr []) ["content"; "2024-02-01.json"];
   mkday (mkdate 2024 1 31) (JArr []) ["content"; "2024-01-31.json"];
   mkday (mkdate 2023 12 31) (JArr []) ["content"; "2023-12-31.json"]].

(** A record whose content has a length. *)
Definition sized (r : news_day) : Prop :=
  exists n, py_len (content r) = Ok n.

(** The number of items shown for a record. *)
Definition count_of (r : news_day) : Z :=
  match py_len (content r) with
  | Ok n => n
  | Raise _ => 0
  end.

(** The rows of the index for a list of records. *)
Definition rows_of (recent : list news_day) : string :=
  String.concat "" (map (fun r => index_row (date r) (count_of r)) recent).


(** The [.json] files of a tree, in traversal order. *)
Definition json_files (tree : walk) : list (string * loaded) :=
  flat_map (fun rf => filter (fun f => endswith (fst f) ".json") (snd rf)) tree.

(** The same files visited in another order. *)
Definition reordered_tree : walk :=
  [(["content"; "b"], [("2024-01-03.json", Loads (JArr []))]);
   (["content"; "a"], [("2024-01-02.json", Loads (JArr [])); ("2024-01-04.json", Loads JNull)])].

Definition ordered_tree : walk :=
  [(["content"; "a"], [("2024-01-04.json", Loads JNull); ("2024-01-02.json", Loads (JArr []))]);
   (["content"; "b"], [("2024-01-03.json", Loads (JArr []))])].

(** The characters printed for a year, a month and a day read back as
    the number printed. *)
Definition year_chars_ok (y : Z) : bool :=
  match list_ascii_of_string (zfill 4 y) with
  | [a; b; c; e] => forallb is_digit [a; b; c; e] && (digits_val [a; b; c; e] =? y)
  | _ => false
  end.

Definition month_chars_ok (m : Z) : bool :=
  match list_ascii_of_string (zfill 2 m) with
  | [a; b] =>
      match month_field [a; b] with
      | Some v => (v =? m) && negb (Ascii.eqb a "-") && negb (Ascii.eqb b "-")
      | None => false
      end
  | _ => false
  end.

Definition day_chars_ok (d : Z) : bool :=
  match list_ascii_of_string (zfill 2 d) with
  | [a; b] =>
      match day_field [a; b] with
      | Some v => v =? d
      | None => false
      end
  | _ => false
  end.

(** The page [main] builds for the record at position [i] of [data]. *)
Definition page_of (now_year : Z) (data : list news_day) (i : Z) (item : news_day)
    : result html :=
  daily_html now_year (date item) (content item) (get_daily_path (date item))
    (fst (neighbours data i)) (snd (neighbours data i)).

Definition daily_paths (l : list news_day) : list path :=
  map (fun r => get_daily_path (date r)) l.

(** The output root is ensured and every file written lies in a directory
    that is ensured. *)
Definition dirs_ready (w : world) : Prop :=
  In PUBLIC_DIR (ensured w)
  /\ forall p h, In (p, h) (written w) -> In (parent p) (ensured w).

(** A computation that keeps [dirs_ready], whatever its outcome. *)
Definition keeps_dirs {A} (m : run A) : Prop :=
  forall w, dirs_ready w -> dirs_ready (snd (m w)).

(** The body of the loop of [main]. *)
Definition daily_job (now_year : Z) (data : list news_day) (ii : Z * news_day)
    : run unit :=
  let '(i, item) := ii in
  let '(prev_date, next_date) := neighbours data i in
  generate_daily_page now_year item prev_date next_date ;;; ret tt.


(** Two days that load and render. *)
Definition good_tree : walk :=
  [(["content"], [("2024-01-02.json", Loads (JArr [JObj [("标题", JStr "a")]]));
                  ("2024-01-03.json", Loads (JArr []))])].

(** An entry whose section is named by a string (the default name when
    the key is absent). *)
Definition named_entry (e : json) : Prop :=
  exists kv s, e = JObj kv /\ section_of kv = JStr s.

(** The section name of such an entry. *)
Definition name_of (e : json) : string :=
  match e with
  | JObj kv => match section_of kv with JStr s => s | _ => "" end
  | _ => ""
  end.

Definition in_section (s : string) (e : json) : bool := String.eqb (name_of e) s.

(** The names of a list, each once, in the order of their first
    occurrence. *)
Definition see (seen : list string) (s : string) : list string :=
  if existsb (String.eqb s) seen then seen else seen ++ [s].

Definition first_seen (names : list string) : list string :=
  fold_left see names [].

(** The sections of a list of entries: one per name, in the order the
    names first occur, each with its entries in the order of the list. *)
Definition sections_of (entries : list json) : list (json * list json) :=
  map (fun s => (JStr s, filter (in_section s) entries))
      (first_seen (map name_of entries)).

(** [l1] is [l2] with some elements left out. *)
Inductive subseq {A} : list A -> list A -> Prop :=
| subseq_nil : subseq [] []
| subseq_skip l1 l2 a : subseq l1 l2 -> subseq l1 (a :: l2)
| subseq_take l1 l2 a : subseq l1 l2 -> subseq (a :: l1) (a :: l2).

(** What holds of the sections while the entries [seen] have been filed:
    they hold these entries, each once; none is empty; each keeps the order
    of the entries. *)
Definition filed (S : list (json * list json)) (seen : list json) : Prop :=
  Permutation (List.concat (map snd S)) seen
  /\ Forall (fun g => snd g <> [] /\ subseq (snd g) seen) S.

(** The card of an entry that is a dict. *)
Definition entry_card (e : json) : html :=
  match e with
  | JObj kv => card_of kv
  | _ => []
  end.

(** The text of a section, from its key and its entries. *)
Definition section_html (g : json * list json) : html :=
  section_frame (fst g) (List.concat (map entry_card (snd g))).

(** Items of three sections, two of them named. *)
Definition mixed_entries : list json :=
  [JObj [("版块", JStr "AI"); ("标题", JStr "a")];
   JObj [("标题", JStr "b")];
   JObj [("版块", JStr "AI"); ("标题", JStr "c")];
   JObj [("版块", JStr "Uncategorized"); ("标题", JStr "d")]].

(** Entries whose sections are [true], [1] and [null]. *)
Definition typed_entries : list json :=
  [JObj [("版块", JBool true)]; JObj [("版块", JInt 1)]; JObj [("版块", JNull)]].

(** A text of ASCII characters only. *)
Definition ascii_only (s : string) : bool :=
  forallb (fun c => (nat_of_ascii c <? 128)%nat) (list_ascii_of_string s).

(** What a write leaves in the file: the text, or nothing when the text
    cannot be encoded. *)
Definition stored (h : html) : html := if encodable h then h else [].

(** A value whose text can be encoded. *)
Definition clean (v : json) : bool := encodable_piece (Val v).





(** The lone surrogate U+D800, as [json.load] reads it from the escape
    [\ud800]. *)
Definition lone_surrogate : string :=
  String (ascii_of_nat 237) (String (ascii_of_nat 160) (String (ascii_of_nat 128) "")).

(** [s] ends with [suffix]; [s] starts with [prefix]. *)
Definition ends_with (s suffix : string) : Prop := exists a, s = (a ++ suffix)%string.

Definition starts_with (s prefix : string) : Prop := exists b, s = (prefix ++ b)%string.


(** The index page as C6 words it: a page is built for the dataset and
    holds the rows of its first five records. *)
Definition index_as_claimed (now_year : Z) (data : list news_day) : Prop :=
  exists page head tail,
    index_html now_year data = Ok page
    /\ page = (head ++ rows_of (firstn 5 data) ++ tail)%string.

(** A day whose file holds [null]. *)
Definition null_tree : walk := [(["content"], [("2024-01-04.json", Loads JNull)])].

Definition null_days : list news_day :=
  [mkday (mkdate 2024 1 4) JNull ["content"; "2024-01-04.json"]].


(** The card of an item as the page shows it: the title as a hyperlink
    to the link, the category in a badge, the source and the time in the
    subtitle, the body in a paragraph. *)
Definition item_shown (link title category source time body : json) (card : html) : Prop :=
  exists a0 a1 a2 a3 a5 a6,
    card = [Lit a0; Val link; Lit a1; Val title; Lit a2; Val category; Lit a3;
            Val source; Lit " - "; Val time; Lit a5; Val body; Lit a6]
    /\ ends_with a0 (text "<h5 class=`card-title text-primary`><a href=`")
    /\ starts_with a1 (text "` target=`_blank`")
    /\ ends_with a1 ">"
    /\ starts_with a2 (text "</a></h5>")
    /\ ends_with a2 (text "<span class=`badge bg-secondary`>")
    /\ starts_with a3 (text "</span>")
    /\ ends_with a3 (text "<h6 class=`card-subtitle mb-2 text-muted`>")
    /\ starts_with a5 (text "</h6>")
    /\ ends_with a5 (text "<p class=`card-text`>")
    /\ starts_with a6 (text "</p>").

(** A section as the page shows it: its name in a header, then the
    cards of its items. *)
Definition section_shown (name : json) (cards frame : html) : Prop :=
  exists b0 b1 b2,
    frame = [Lit b0; Val name; Lit b1] ++ cards ++ [Lit b2]
    /\ ends_with b0 (text "<h2 class=`section-header`>")
    /\ starts_with b1 (text "</h2>").

(** * Properties *)

Example strptime_padded : strptime_ymd "2024-01-02" = Some (mkdate 2024 1 2).
Proof. reflexivity. Qed.

Example strptime_unpadded : strptime_ymd "2024-1-2" = Some (mkdate 2024 1 2).
Proof. reflexivity. Qed.

Example strptime_not_a_day : strptime_ymd "2023-02-29" = None.
Proof. reflexivity. Qed.

Example stem_json : stem "2024-01-02.json" = "2024-01-02" /\ stem ".json" = ".json"
  /\ stem "a.b.json" = "a.b".
Proof. repeat split; reflexivity. Qed.

(** ** The order on dates *)

Lemma date_ltb_spec (a b : pydate) :
  date_ltb a b = true <->
  (year a < year b \/ (year a = year b /\
     (month a < month b \/ (month a = month b /\ day a < day b)))).
Proof.
  unfold date_ltb, date_compare.
  destruct (Z.compare_spec (year a) (year b));
    destruct (Z.compare_spec (month a) (month b));
    destruct (Z.compare_spec (day a) (day b));
    split; intros; try discriminate; try reflexivity; lia.
Qed.

Lemma date_ltb_false (a b : pydate) :
  date_ltb a b = false <->
  (year b < year a \/ (year a = year b /\
     (month b < month a \/ (month a = month b /\ day b <= day a)))).
Proof.
  destruct (date_ltb a b) eqn:E.
  - apply date_ltb_spec in E. split; [discriminate | lia].
  - split; [intros _ | reflexivity].
    assert (H : ~ (year a < year b \/ (year a = year b /\
      (month a < month b \/ (month a = month b /\ day a < day b))))).
    { intro H. apply date_ltb_spec in H. congruence. }
    lia.
Qed.

Lemma date_le_trans (a b c : pydate) : date_le a b -> date_le b c -> date_le a c.
Proof.
  unfold date_le. rewrite !date_ltb_false. lia.
Qed.

Lemma date_lt_le (a b : pydate) : date_lt a b -> date_le a b.
Proof.
  unfold date_lt, date_le. rewrite date_ltb_spec, date_ltb_false. lia.
Qed.

Lemma date_lt_irrefl (a : pydate) : ~ date_lt a a.
Proof.
  unfold date_lt. rewrite date_ltb_spec. lia.
Qed.

Lemma date_le_neq_lt (a b : pydate) : date_le a b -> a <> b -> date_lt a b.
Proof.
  unfold date_le, date_lt. rewrite date_ltb_spec, date_ltb_false.
  destruct a as [ya ma da], b as [yb mb db]; simpl. intros H N.
  assert (~ (ya = yb /\ ma = mb /\ da = db)) by (intros (-> & -> & ->); auto).
  lia.
Qed.

Lemma date_eqb_eq (a b : pydate) : date_eqb a b = true <-> a = b.
Proof.
  unfold date_eqb, date_compare.
  destruct a as [ya ma da], b as [yb mb db]; simpl.
  destruct (Z.compare_spec ya yb); destruct (Z.compare_spec ma mb);
    destruct (Z.compare_spec da db);
    split; intros H'; try discriminate; try reflexivity;
    try (inversion H'; lia); subst; reflexivity.
Qed.

(** ** The loader *)

Lemma load_file_spec (root : path) (f : string * loaded)
    (news_data : list news_day) (out : list line) :
  load_file root f (news_data, out)
  = (news_data ++ record_of root f, out ++ lines_of root f).
Proof.
  unfold load_file, record_of, lines_of. destruct f as [file body]; simpl.
  destruct (endswith file ".json").
  - destruct (strptime_ymd (stem file)); [destruct body |];
      rewrite ?app_nil_r; reflexivity.
  - rewrite !app_nil_r. reflexivity.
Qed.

Lemma scan_files_spec (root : path) (files : list (string * loaded)) :
  forall news_data out,
    fold_left (fun st f => load_file root f st) files (news_data, out)
    = (news_data ++ flat_map (record_of root) files,
       out ++ flat_map (lines_of root) files).
Proof.
  induction files as [| f files IH]; intros; cbn [fold_left flat_map].
  - rewrite !app_nil_r. reflexivity.
  - rewrite load_file_spec, IH, <- !app_assoc. reflexivity.
Qed.

Lemma scan_spec (tree : walk) :
  forall news_data out,
    scan tree (news_data, out)
    = (news_data ++ loaded_records tree, out ++ diagnostics tree).
Proof.
  unfold scan, loaded_records, diagnostics.
  induction tree as [| [root files] tree IH]; intros;
    cbn [fold_left flat_map fst snd].
  - rewrite !app_nil_r. reflexivity.
  - rewrite scan_files_spec, IH, <- !app_assoc. reflexivity.
Qed.

Lemma load_data_spec (tree : walk) :
  load_data tree = (sort_desc (loaded_records tree), diagnostics tree).
Proof.
  unfold load_data. rewrite scan_spec. reflexivity.
Qed.

Lemma insert_desc_perm (x : news_day) (l : list news_day) :
  Permutation (insert_desc x l) (x :: l).
Proof.
  induction l as [| y l IH]; simpl.
  - apply Permutation_refl.
  - destruct (date_ltb (date x) (date y)).
    + eapply perm_trans; [apply perm_skip, IH | apply perm_swap].
    + apply Permutation_refl.
Qed.

Lemma sort_desc_perm (l : list news_day) : Permutation (sort_desc l) l.
Proof.
  induction l as [| x l IH]; simpl.
  - constructor.
  - eapply perm_trans; [apply insert_desc_perm | apply perm_skip, IH].
Qed.

Lemma insert_desc_descending (x : news_day) (l : list news_day) :
  descending l -> descending (insert_desc x l).
Proof.
  unfold descending. induction 1 as [| y l S IH F]; simpl.
  - repeat constructor.
  - destruct (date_ltb (date x) (date y)) eqn:E.
    + constructor; [exact IH |].
      eapply Permutation_Forall; [apply Permutation_sym, insert_desc_perm |].
      constructor; [apply date_lt_le; exact E | exact F].
    + constructor; [constructor; assumption |].
      constructor; [exact E |].
      eapply Forall_impl; [| exact F]. intros b Hb. simpl in Hb.
      eapply date_le_trans; [exact Hb | exact E].
Qed.

Lemma sort_desc_descending (l : list news_day) : descending (sort_desc l).
Proof.
  induction l as [| x l IH]; simpl.
  - constructor.
  - apply insert_desc_descending, IH.
Qed.

(** The sort is stable: the records of one date keep their order. *)
Lemma insert_desc_on_date (d : pydate) (x : news_day) (l : list news_day) :
  on_date d (insert_desc x l) = on_date d (x :: l).
Proof.
  unfold on_date. induction l as [| y l IH]; simpl; [reflexivity |].
  destruct (date_ltb (date x) (date y)) eqn:E; [| reflexivity].
  simpl. rewrite IH. simpl.
  destruct (date_eqb (date x) d) eqn:Ex, (date_eqb (date y) d) eqn:Ey;
    try reflexivity.
  apply date_eqb_eq in Ex, Ey. rewrite Ex, Ey in E.
  exfalso. exact (date_lt_irrefl d E).
Qed.

Lemma sort_desc_on_date (d : pydate) (l : list news_day) :
  on_date d (sort_desc l) = on_date d l.
Proof.
  induction l as [| x l IH]; simpl; [reflexivity |].
  rewrite insert_desc_on_date. unfold on_date in *. simpl. rewrite IH.
  reflexivity.
Qed.

Lemma descending_nodup_strict (l : list news_day) :
  descending l -> NoDup (map date l) -> strictly_descending l.
Proof.
  unfold descending, strictly_descending.
  induction 1 as [| a l S IH F]; intros N; simpl in N.
  - constructor.
  - inversion N as [| ? ? Hn N']; subst. constructor; [apply IH, N' |].
    rewrite Forall_forall in *. intros b Hb.
    apply date_le_neq_lt; [apply F, Hb |].
    intros Heq. apply Hn. rewrite <- Heq. apply in_map, Hb.
Qed.

Lemma strict_nodup (l : list news_day) :
  strictly_descending l -> NoDup (map date l).
Proof.
  unfold strictly_descending. induction 1 as [| a l S IH F]; simpl.
  - constructor.
  - constructor; [| exact IH].
    intros Hin. apply in_map_iff in Hin. destruct Hin as (b & Hb & Hin).
    rewrite Forall_forall in F. specialize (F b Hin). rewrite Hb in F.
    exact (date_lt_irrefl _ F).
Qed.

(** C1 (as amended): the dataset holds exactly one record for each file
    that loads, sorted by date, newest first, the records of one date all
    kept in traversal order; it is strictly descending, and holds one
    record per distinct date, exactly when no two loaded files carry the
    same date. *)
Theorem load_data_dataset (tree : walk) :
  let dataset := fst (load_data tree) in
  Permutation dataset (loaded_records tree)
  /\ descending dataset
  /\ (forall d, on_date d dataset = on_date d (loaded_records tree))
  /\ (strictly_descending dataset <-> NoDup (map date (loaded_records tree)))
  /\ (one_record_per_date tree dataset <-> NoDup (map date (loaded_records tree))).
Proof.
  rewrite load_data_spec. simpl.
  pose proof (sort_desc_perm (loaded_records tree)) as P.
  assert (Pm : Permutation (map date (sort_desc (loaded_records tree)))
                           (map date (loaded_records tree)))
    by (apply Permutation_map, P).
  repeat split.
  - exact P.
  - apply sort_desc_descending.
  - intros d. apply sort_desc_on_date.
  - intros S. eapply Permutation_NoDup; [exact Pm | apply strict_nodup, S].
  - intros N. apply descending_nodup_strict; [apply sort_desc_descending |].
    eapply Permutation_NoDup; [apply Permutation_sym, Pm | exact N].
  - intros [N _]. eapply Permutation_NoDup; [exact Pm | exact N].
  - eapply Permutation_NoDup; [apply Permutation_sym, Pm | assumption].
  - intros Hd. eapply Permutation_in; [exact Pm | exact Hd].
  - intros Hd. eapply Permutation_in; [apply Permutation_sym, Pm | exact Hd].
Qed.

(** C1 (as stated) fails: two files of the same date, in two directories,
    both stay in the dataset, neither overriding the other. *)
Lemma load_data_keeps_duplicates :
  all_files_valid dup_tree
  /\ fst (load_data dup_tree)
     = [mkday (mkdate 2024 1 2) (JArr []) ["content"; "a"; "2024-01-02.json"];
        mkday (mkdate 2024 1 2) (JArr [JObj []]) ["content"; "b"; "2024-01-02.json"]]
  /\ ~ one_record_per_date dup_tree (fst (load_data dup_tree))
  /\ ~ strictly_descending (fst (load_data dup_tree)).
Proof.
  assert (E : fst (load_data dup_tree)
     = [mkday (mkdate 2024 1 2) (JArr []) ["content"; "a"; "2024-01-02.json"];
        mkday (mkdate 2024 1 2) (JArr [JObj []]) ["content"; "b"; "2024-01-02.json"]])
    by reflexivity.
  split; [| split; [exact E | rewrite E; split]].
  - intros root files name body Ht Hf. simpl in Ht.
    destruct Ht as [Ht | [Ht | []]]; inversion Ht; subst; simpl in Hf;
      destruct Hf as [Hf | []]; inversion Hf; subst;
      (split; [reflexivity | split; [discriminate | eexists; reflexivity]]).
  - intros [N _]. simpl in N. inversion N as [| ? ? Hn _]; subst.
    apply Hn. left. reflexivity.
  - intros S. apply strict_nodup in S. simpl in S.
    inversion S as [| ? ? Hn _]; subst. apply Hn. left. reflexivity.
Qed.

(** ** Printing does not steer the run *)











Lemma main_publish (now_year : Z) (tree : walk) :
  main now_year tree
  = (ensure_public_dir ;;; print_all (snd (load_data tree)) ;;;
     publish now_year (fst (load_data tree))).
Proof.
  unfold main, publish. destruct (load_data tree) as [data out]; simpl.
  destruct data; reflexivity.
Qed.


(** ** Skipped files *)









(** ** Texts that can be encoded *)

Lemma list_ascii_app (a b : string) :
  list_ascii_of_string (a ++ b) = list_ascii_of_string a ++ list_ascii_of_string b.
Proof.
  induction a as [| c a IH]; simpl; [reflexivity | rewrite IH; reflexivity].
Qed.

Lemma ascii_only_app (a b : string) :
  ascii_only (a ++ b) = ascii_only a && ascii_only b.
Proof. unfold ascii_only. rewrite list_ascii_app, forallb_app. reflexivity. Qed.

Lemma ascii_only_cons (c : ascii) (s : string) :
  ascii_only (String c s) = (nat_of_ascii c <? 128)%nat && ascii_only s.
Proof. reflexivity. Qed.

Lemma ascii_only_concat (sep : string) (l : list string) :
  ascii_only sep = true -> Forall (fun s => ascii_only s = true) l ->
  ascii_only (String.concat sep l) = true.
Proof.
  intros Hs F. induction F as [| a l Ha F IH]; [reflexivity |].
  destruct l as [| b l]; [exact Ha |].
  change (String.concat sep (a :: b :: l))
    with (a ++ sep ++ String.concat sep (b :: l))%string.
  rewrite !ascii_only_app, Ha, Hs, IH. reflexivity.
Qed.

Lemma codepoints_aux_ascii (l : list ascii) (cur : option string) :
  forallb (fun c => (nat_of_ascii c <? 128)%nat) l = true ->
  match cur with Some s => is_surrogate s = false | None => True end ->
  existsb is_surrogate (codepoints_aux l cur) = false.
Proof.
  revert cur. induction l as [| c l IH]; intros cur A C.
  - destruct cur as [s |]; simpl; [rewrite C |]; reflexivity.
  - cbn [forallb] in A. apply andb_prop in A. destruct A as [Ac Al].
    cbn [codepoints_aux].
    assert (L : is_lead c = true).
    { unfold is_lead. apply Nat.ltb_lt in Ac.
      destruct (128 <=? nat_of_ascii c)%nat eqn:E; [| reflexivity].
      apply Nat.leb_le in E. lia. }
    rewrite L.
    destruct cur as [s |]; cbn [existsb]; [rewrite C |]; apply IH; auto.
Qed.

(** A text of ASCII characters holds no surrogate. *)
Lemma ascii_no_surrogate (s : string) : ascii_only s = true -> has_surrogate s = false.
Proof.
  intros A. unfold has_surrogate, codepoints. apply codepoints_aux_ascii; [exact A | exact I].
Qed.

Lemma ascii_only_uint (d : Decimal.uint) : ascii_only (NilZero.string_of_uint d) = true.
Proof.
  assert (G : forall d, ascii_only (NilEmpty.string_of_uint d) = true)
    by (intros d'; induction d' as [| d' IH | d' IH | d' IH | d' IH | d' IH | d' IH | d' IH
                                     | d' IH | d' IH | d' IH]; simpl; auto).
  destruct d; simpl; auto; apply (G (_ d)) || apply G.
Qed.

Lemma ascii_only_str_int (n : Z) : ascii_only (str_int n) = true.
Proof.
  unfold str_int, NilZero.string_of_int.
  destruct (Z.to_int n) as [d | d]; cbv beta iota; [apply ascii_only_uint |].
  rewrite ascii_only_cons, ascii_only_uint. reflexivity.
Qed.

Lemma ascii_only_zeros (k : nat) : ascii_only (zeros k) = true.
Proof. induction k as [| k IH]; [reflexivity | exact IH]. Qed.

Lemma ascii_only_zfill (w : nat) (n : Z) : ascii_only (zfill w n) = true.
Proof.
  unfold zfill. destruct (n <? 0).
  - rewrite ascii_only_app, ascii_only_cons, ascii_only_zeros, ascii_only_str_int.
    reflexivity.
  - rewrite ascii_only_app, ascii_only_zeros, ascii_only_str_int. reflexivity.
Qed.

Create HintDb ascii.
#[local] Hint Resolve ascii_only_str_int ascii_only_zfill ascii_only_zeros : ascii.

(** Splits a text into its parts and settles the parts that are literal. *)
Ltac ascii_parts :=
  repeat rewrite ascii_only_app;
  repeat match goal with
         | |- (_ && _) = true => apply andb_true_intro; split
         end;
  auto with ascii;
  try (vm_compute; reflexivity).

Lemma ascii_only_isoformat (d : pydate) : ascii_only (isoformat d) = true.
Proof. unfold isoformat. ascii_parts. Qed.

Lemma ascii_only_strftime_Ymd (d : pydate) : ascii_only (strftime_Ymd d) = true.
Proof. unfold strftime_Ymd. ascii_parts. Qed.

Lemma ascii_only_daily_link (d : pydate) : ascii_only (daily_link d) = true.
Proof. unfold daily_link. ascii_parts. Qed.

#[local] Hint Resolve ascii_only_isoformat ascii_only_strftime_Ymd ascii_only_daily_link
  : ascii.

Lemma ascii_only_index_row (d : pydate) (n : Z) : ascii_only (index_row d n) = true.
Proof. unfold index_row. ascii_parts. Qed.

Lemma relpath_list_ascii (path start : list string) :
  Forall (fun s => ascii_only s = true) path ->
  Forall (fun s => ascii_only s = true) (relpath_list path start).
Proof.
  assert (R : forall n, Forall (fun s => ascii_only s = true) (repeat ".." n))
    by (induction n; simpl; constructor; auto).
  intros F. revert start. induction F as [| p path Hp F IH]; intros start.
  - destruct start; cbn [relpath_list]; rewrite app_nil_r; apply R.
  - destruct start as [| c start]; cbn [relpath_list].
    + constructor; assumption.
    + destruct (String.eqb p c); [apply IH |].
      apply Forall_app. split; [apply R | constructor; assumption].
Qed.

Lemma ascii_only_relative_path (from_path : path) (d : pydate) :
  ascii_only (get_relative_path from_path (get_daily_path d)) = true.
Proof.
  unfold get_relative_path, relpath.
  assert (F : Forall (fun s => ascii_only s = true)
                (relpath_list (get_daily_path d) (parent from_path))).
  { apply relpath_list_ascii. unfold get_daily_path, PUBLIC_DIR. cbn [app].
    repeat constructor; ascii_parts. }
  destruct (relpath_list _ _) as [| a l] eqn:E; [reflexivity |].
  apply ascii_only_concat; [reflexivity | exact F].
Qed.

#[local] Hint Resolve ascii_only_index_row ascii_only_relative_path : ascii.



Lemma ascii_only_index_rows (recent_news : list news_day) :
  forall list_items h,
    ascii_only list_items = true ->
    index_rows list_items recent_news = Ok h -> ascii_only h = true.
Proof.
  induction recent_news as [| item rest IH]; intros list_items h A H; cbn [index_rows] in H.
  - injection H as <-. exact A.
  - destruct (py_len (content item)) as [n | e]; [| discriminate H].
    cbn [bind] in H. apply (IH _ _) in H; [exact H |]. ascii_parts.
Qed.

Lemma ascii_only_index_page (now_year : Z) (list_group : string) :
  ascii_only list_group = true -> ascii_only (index_page now_year list_group) = true.
Proof. intros A. unfold index_page. ascii_parts. Qed.

(** The text of the index page can always be encoded. *)
Lemma index_html_encodable (now_year : Z) (news_data : list news_day) (h : string) :
  index_html now_year news_data = Ok h -> encodable [Lit h] = true.
Proof.
  unfold index_html. intros H.
  destruct (index_rows "" (firstn 5 news_data)) as [rows |] eqn:R; [| discriminate H].
  injection H as <-. cbn [encodable forallb encodable_piece].
  rewrite ascii_no_surrogate; [reflexivity |].
  apply ascii_only_index_page. unfold index_frame.
  destruct (negb (String.eqb rows "")); [| reflexivity].
  exact (ascii_only_index_rows _ "" _ eq_refl R).
Qed.







(** [generate_index] writes the page it could build. *)
Lemma generate_index_ok (now_year : Z) (news_data : list news_day) (h : string) (w : world) :
  index_html now_year news_data = Ok h ->
  generate_index now_year news_data w
  = (Ok tt, mkworld (ensured w) (written w ++ [(index_path, [Lit h])])
              (stdout w ++ [Generated index_path])).
Proof.
  intros E. unfold generate_index, and_then, lift, write, print. rewrite E.
  rewrite (index_html_encodable _ _ _ E). reflexivity.
Qed.

(** ** An empty dataset *)

Lemma index_html_empty (now_year : Z) :
  index_html now_year [] = Ok (index_page now_year no_data_row).
Proof. reflexivity. Qed.

(** C2 (as amended): on an empty dataset [main] ensures the output root,
    reports that no data was found and returns; it writes no daily page and
    no index page.  The placeholder row is what [generate_index] puts in
    the place of the list when it is called on an empty dataset. *)
Theorem main_empty_dataset (now_year : Z) (tree : walk) :
  fst (load_data tree) = [] ->
  main now_year tree empty_world
  = (Ok tt, mkworld [PUBLIC_DIR] [] (snd (load_data tree) ++ [NoDataFound]))
  /\ forall w,
       generate_index now_year [] w
       = (Ok tt, mkworld (ensured w)
                   (written w ++ [(index_path, [Lit (index_page now_year no_data_row)])])
                   (stdout w ++ [Generated index_path])).
Proof.
  intros E. split.
  - rewrite main_publish, E. reflexivity.
  - intros w. apply generate_index_ok, index_html_empty.
Qed.

Lemma main_empty_dataset_witness :
  main 2026 txt_tree empty_world
  = (Ok tt, mkworld [PUBLIC_DIR] [] (snd (load_data txt_tree) ++ [NoDataFound]))
  /\ forall w,
       generate_index 2026 [] w
       = (Ok tt, mkworld (ensured w)
                   (written w ++ [(index_path, [Lit (index_page 2026 no_data_row)])])
                   (stdout w ++ [Generated index_path])).
Proof.
  apply (main_empty_dataset 2026 txt_tree). reflexivity.
Defined.

(** C2 (as stated) fails: on an empty content root the run succeeds and
    no index page is written. *)
Lemma main_empty_writes_no_index :
  fst (load_data []) = []
  /\ fst (main 2026 [] empty_world) = Ok tt
  /\ ~ index_written (snd (main 2026 [] empty_world)).
Proof.
  split; [reflexivity | split; [reflexivity |]].
  intros [h H]. exact H.
Qed.

(** ** Output paths *)

Lemma forallb_zrange (P : Z -> bool) (lo n : Z) :
  forallb P (zrange lo n) = true ->
  forall z, lo <= z < lo + n -> P z = true.
Proof.
  intros H z Hz. rewrite forallb_forall in H. apply H.
  unfold zrange. apply in_map_iff. exists (Z.to_nat (z - lo)). split.
  - lia.
  - apply in_seq. lia.
Qed.

Lemma valid_date_bounds (d : pydate) :
  valid_date d = true ->
  1 <= year d <= 9999 /\ 1 <= month d <= 12 /\ 1 <= day d <= 31.
Proof.
  unfold valid_date, days_in_month. intros H.
  repeat (apply andb_prop in H; destruct H as [H ?]).
  repeat match goal with
         | H : (_ <=? _) = true |- _ => apply Z.leb_le in H
         end.
  repeat split; try assumption.
  destruct (month d =? 2); [destruct (is_leap (year d)) |
    destruct ((month d =? 4) || (month d =? 6) || (month d =? 9) || (month d =? 11))];
    lia.
Qed.

Lemma two_digit_fields (n : Z) :
  1 <= n <= 31 ->
  decimal n (zfill 2 n) = true /\ String.length (zfill 2 n) = 2%nat.
Proof.
  intros H.
  assert (A : forallb (fun n => decimal n (zfill 2 n)
                                && (String.length (zfill 2 n) =? 2)%nat)
                      (zrange 1 31) = true) by (vm_compute; reflexivity).
  pose proof (forallb_zrange _ _ _ A n ltac:(lia)) as B. simpl in B.
  apply andb_prop in B. destruct B as [B1 B2].
  apply Nat.eqb_eq in B2. auto.
Qed.

Lemma year_field (y : Z) :
  1 <= y <= 9999 ->
  decimal y (str_int y) = true
  /\ String.length (str_int y) = year_width y
  /\ (String.length (str_int y) = 4%nat <-> 1000 <= y).
Proof.
  intros H.
  assert (A : forallb (fun y => decimal y (str_int y)
                 && (String.length (str_int y) =? year_width y)%nat
                 && Bool.eqb (String.length (str_int y) =? 4)%nat (1000 <=? y))
                      (zrange 1 9999) = true) by (vm_compute; reflexivity).
  pose proof (forallb_zrange _ _ _ A y ltac:(lia)) as B. simpl in B.
  apply andb_prop in B. destruct B as [B B3].
  apply andb_prop in B. destruct B as [B1 B2].
  split; [exact B1 | split; [apply Nat.eqb_eq, B2 |]].
  apply Bool.eqb_prop in B3. rewrite <- Nat.eqb_eq, B3. apply Z.leb_le.
Qed.

(** What a call of [generate_daily_page] does: the directory of the page
    is ensured first; when the text of the page could be built, the file
    at [get_daily_path] of its date is opened and the text written to it,
    which fails when the text cannot be encoded. *)
Lemma generate_daily_page_spec (now_year : Z) (item : news_day)
    (previous_date next_date : option pydate) (w : world) :
  let output_file := get_daily_path (date item) in
  generate_daily_page now_year item previous_date next_date w
  = match daily_html now_year (date item) (content item) output_file
            previous_date next_date with
    | Ok h =>
        if encodable h then
          (Ok output_file,
           mkworld (ensured w ++ [parent output_file])
                   (written w ++ [(output_file, h)])
                   (stdout w ++ [Generated output_file]))
        else
          (Raise UnicodeEncodeError,
           mkworld (ensured w ++ [parent output_file])
                   (written w ++ [(output_file, [])]) (stdout w))
    | Raise e =>
        (Raise e, mkworld (ensured w ++ [parent output_file]) (written w) (stdout w))
    end.
Proof.
  unfold generate_daily_page, get_daily_path, parent, PUBLIC_DIR, and_then, mkdir,
    lift, write, print, ret.
  cbn [app removelast ensured written stdout].
  destruct (daily_html _ _ _ _ _ _) as [h | e]; [| reflexivity].
  destruct (encodable h); reflexivity.
Qed.

(** The link of the navigation bar is the same text on every daily page;
    [os.path.relpath] of the output root from the directory of a page is
    two levels up. *)
Remark relpath_of_root (d : pydate) :
  get_relative_path (get_daily_path d) PUBLIC_DIR = "../..".
Proof. reflexivity. Qed.

(** C9 (as amended): the daily page of a date is written to
    [<output-root>/<year>/<month>/<day>.html], the month and the day on two
    digits, the year in decimal without padding, which is four digits
    exactly from the year 1000 on; the path put before [/index.html] in
    the navigation bar is the constant ["../../.."] on every page. *)
Theorem daily_path_layout (d : pydate) :
  valid_date d = true ->
  get_daily_path d
  = PUBLIC_DIR ++ [str_int (year d); zfill 2 (month d); (zfill 2 (day d) ++ ".html")%string]
  /\ decimal (year d) (str_int (year d)) = true
  /\ String.length (str_int (year d)) = year_width (year d)
  /\ (String.length (str_int (year d)) = 4%nat <-> 1000 <= year d)
  /\ decimal (month d) (zfill 2 (month d)) = true
  /\ String.length (zfill 2 (month d)) = 2%nat
  /\ decimal (day d) (zfill 2 (day d)) = true
  /\ String.length (zfill 2 (day d)) = 2%nat
  /\ (1000 <= year d -> four_two_two (get_daily_path d) d)
  /\ (forall now_year c previous_date next_date w h,
        daily_html now_year d c (get_daily_path d) previous_date next_date = Ok h ->
        written (snd (generate_daily_page now_year (mkday d c []) previous_date
                        next_date w))
        = written w ++ [(get_daily_path d, stored h)])
  /\ relative_root = "../../.."
  /\ (forall now_year output_file previous_date next_date sections_html,
        In (Lit (generate_navbar "../../.."))
           (daily_frame now_year d output_file previous_date next_date sections_html)).
Proof.
  intros V. destruct (valid_date_bounds d V) as (Hy & Hm & Hd).
  destruct (year_field (year d) Hy) as (Y1 & Y3 & Y2).
  destruct (two_digit_fields (month d) ltac:(lia)) as [M1 M2].
  destruct (two_digit_fields (day d) Hd) as [D1 D2].
  repeat split; try assumption; try reflexivity; try apply Y2.
  - intros Hk. exists (str_int (year d)), (zfill 2 (month d)), (zfill 2 (day d)).
    repeat split; try assumption. apply Y2, Hk.
  - intros now_year c p n w h E.
    pose proof (generate_daily_page_spec now_year (mkday d c []) p n w) as S.
    cbn [date content] in S. rewrite E in S. rewrite S. unfold stored.
    destruct (encodable h); reflexivity.
  - intros. unfold daily_frame, relative_root. simpl. tauto.
Qed.

Lemma daily_path_layout_witness :
  get_daily_path (mkdate 2024 1 2) = ["public"; "2024"; "01"; "02.html"]
  /\ four_two_two (get_daily_path (mkdate 2024 1 2)) (mkdate 2024 1 2).
Proof.
  pose proof (daily_path_layout (mkdate 2024 1 2) eq_refl) as H.
  split; [reflexivity |].
  apply H. simpl. lia.
Defined.

(** C9 (as stated) fails: the file [0999-01-01.json] gives a date whose
    page goes to [public/999/01/01.html], the year on three digits. *)
Lemma daily_path_short_year :
  strptime_ymd "0999-01-01" = Some early_date
  /\ get_daily_path early_date = ["public"; "999"; "01"; "01.html"]
  /\ ~ four_two_two (get_daily_path early_date) early_date.
Proof.
  split; [reflexivity | split; [reflexivity |]].
  intros (y & m & dd & E & _ & L & _).
  vm_compute in E. injection E as <- _ _. vm_compute in L. discriminate.
Qed.

(** ** Time formatting *)

Ltac break_match_in H :=
  match type of H with
  | context [match ?x with _ => _ end] => destruct x eqn:?
  end.

Lemma is_digit_val (c : ascii) : is_digit c = true -> 0 <= digit_val c <= 9.
Proof.
  unfold is_digit, digit_val. intros H. apply andb_prop in H. lia.
Qed.

Lemma parse_digits_nonneg (buf : list ascii) (num_digits p p' : nat) (var v : Z) :
  parse_digits buf p num_digits var = Some (v, p') -> 0 <= var -> 0 <= v.
Proof.
  revert p var. induction num_digits as [| n IH]; intros p var H Hv; cbn [parse_digits] in H.
  - injection H as <- _. exact Hv.
  - destruct (is_digit (byte_at buf p)) eqn:D; [| discriminate H].
    apply is_digit_val in D. apply (IH _ _ H). lia.
Qed.

Lemma time_fields_nonneg (buf : list ascii) (p_end left : nat) (first has_separator : bool)
    (p p' : nat) (vals vals' : list Z) (ret : option bool) :
  time_fields buf p_end left first has_separator p vals = Some (vals', p', ret) ->
  Forall (fun v => 0 <= v) vals -> Forall (fun v => 0 <= v) vals'.
Proof.
  revert first has_separator p vals.
  induction left as [| n IH]; intros first has_separator p vals H F; cbn [time_fields] in H.
  - injection H as <- _ _. exact F.
  - destruct (parse_digits buf p 2 0) as [[v p1] |] eqn:D; [| discriminate H].
    apply parse_digits_nonneg in D; [| lia].
    assert (F' : Forall (fun v => 0 <= v) (vals ++ [v]))
      by (apply Forall_app; split; [exact F | constructor; [exact D | constructor]]).
    cbv zeta in H.
    repeat (break_match_in H; try discriminate H);
      try (injection H as <- _ _; exact F');
      try (exact (IH _ _ _ _ H F')).
Qed.

Lemma nth_nonneg (vals : list Z) (k : nat) :
  Forall (fun v => 0 <= v) vals -> 0 <= nth k vals 0.
Proof.
  intros F. revert k. induction F as [| v vals Hv _ IH]; intros [| k]; simpl; auto; lia.
Qed.

Lemma parse_hh_mm_ss_ff_bounds (buf : list ascii) (p_end : nat) (h m sec us : Z) (rv : bool) :
  parse_hh_mm_ss_ff buf p_end = Some (h, m, sec, us, rv) -> 0 <= h /\ 0 <= m.
Proof.
  unfold parse_hh_mm_ss_ff. intros H.
  destruct (time_fields buf p_end 3 true true 0 []) as [[[vals p] ret] |] eqn:T;
    [| discriminate H].
  apply time_fields_nonneg in T; [| constructor].
  pose proof (nth_nonneg vals 0 T). pose proof (nth_nonneg vals 1 T).
  destruct ret as [rv' |].
  - injection H as <- <- _ _ _. auto.
  - destruct (parse_digits buf p _ 0) as [[us' p'] |]; [| discriminate H].
    injection H as <- <- _ _ _. auto.
Qed.

Lemma parse_isoformat_time_bounds (dtstr : list ascii) (h m sec us : Z) (tz : option (Z * Z)) :
  parse_isoformat_time dtstr = Some (h, m, sec, us, tz) -> 0 <= h /\ 0 <= m.
Proof.
  unfold parse_isoformat_time. intros H.
  destruct (parse_hh_mm_ss_ff dtstr (find_tzinfo dtstr)) as [[[[[h0 m0] sec0] us0] rv] |] eqn:P;
    [| discriminate H].
  apply parse_hh_mm_ss_ff_bounds in P.
  repeat (break_match_in H; try discriminate H); injection H as <- <- _ _ _; exact P.
Qed.

(** The hour and the minute of a parsed timestamp are those of a time of
    day. *)
Lemma fromisoformat_time (s : string) (dt : datetime) :
  fromisoformat s = Some dt -> 0 <= hour dt <= 23 /\ 0 <= minute dt <= 59.
Proof.
  unfold fromisoformat. intros H.
  destruct (sanitize_isoformat_str s) as [clean |]; [| discriminate H].
  destruct (has_surrogate clean); [discriminate H |].
  destruct (_ <? 7)%nat; [discriminate H |].
  destruct (find_isoformat_datetime_separator _) as [loc |]; [| discriminate H].
  destruct (parse_isoformat_date _ loc) as [d |]; [| discriminate H].
  match type of H with
  | match ?t with _ => _ end = _ => destruct t as [[[[[h m] sec] us] tz] |] eqn:T
  end; [| discriminate H].
  destruct (tzinfo_from_isoformat_results tz) as [off |]; [| discriminate H].
  destruct (valid_date d && valid_time h m sec) eqn:V; [| discriminate H].
  injection H as <-. cbn [hour minute].
  apply andb_prop in V. destruct V as [_ V]. unfold valid_time in V.
  apply andb_prop in V. destruct V as [V _]. apply andb_prop in V. destruct V as [V1 V2].
  assert (B : 0 <= h /\ 0 <= m).
  { destruct (loc <? _)%nat.
    - exact (parse_isoformat_time_bounds _ _ _ _ _ _ T).
    - injection T as <- <- _ _ _. lia. }
  lia.
Qed.

Lemma two_digit_numeral (n : Z) :
  0 <= n <= 99 ->
  decimal n (zfill 2 n) = true /\ String.length (zfill 2 n) = 2%nat.
Proof.
  intros H.
  assert (A : forallb (fun n => decimal n (zfill 2 n)
                                && (String.length (zfill 2 n) =? 2)%nat)
                      (zrange 0 100) = true) by (vm_compute; reflexivity).
  pose proof (forallb_zrange _ _ _ A n ltac:(lia)) as B. simpl in B.
  apply andb_prop in B. destruct B as [B1 B2].
  apply Nat.eqb_eq in B2. auto.
Qed.

Lemma format_time_falsy (v : json) : truthy v = false -> format_time v = JStr "".
Proof. unfold format_time. intros ->. reflexivity. Qed.

Lemma format_time_str (s : string) :
  format_time (JStr s)
  = match fromisoformat (replace_Z s) with
    | Some dt => JStr (strftime_HM dt)
    | None => JStr s
    end.
Proof.
  unfold format_time. simpl. destruct (String.eqb_spec s "") as [-> | N]; simpl.
  - reflexivity.
  - destruct (fromisoformat (replace_Z s)); reflexivity.
Qed.

(** C5 (as amended): the rendered time is empty when the field is absent
    or holds a falsy value ([null], [false], [0], [0.0], the empty string,
    [[]], [{}]); for a string that [datetime.fromisoformat] accepts after
    ["+00:00"] is put for every ["Z"] it is the hour and the minute
    written in the timestamp, each on two digits, whatever the offset;
    every other value goes through unchanged.  [format_time] returns in
    every case.  The timestamps accepted are those of Python 3.11: a
    fraction of any length, an offset without colon, the basic format and
    week dates among them. *)
Theorem format_time_cases (v : json) :
  (forall kv, lookup "发布时间" kv = None -> rendered_time kv = JStr "")
  /\ (truthy v = false -> format_time v = JStr "")
  /\ (forall s dt,
        v = JStr s -> fromisoformat (replace_Z s) = Some dt ->
        format_time v = JStr (zfill 2 (hour dt) ++ ":" ++ zfill 2 (minute dt))
        /\ decimal (hour dt) (zfill 2 (hour dt)) = true
        /\ String.length (zfill 2 (hour dt)) = 2%nat
        /\ decimal (minute dt) (zfill 2 (minute dt)) = true
        /\ String.length (zfill 2 (minute dt)) = 2%nat)
  /\ (forall s, v = JStr s -> fromisoformat (replace_Z s) = None -> format_time v = v)
  /\ (truthy v = true -> (forall s, v <> JStr s) -> format_time v = v)
  /\ format_time (JStr "2024-01-02T03:04:05Z") = JStr "03:04"
  /\ format_time (JStr "2024-01-02T03:04:05.1Z") = JStr "03:04"
  /\ format_time (JStr "2024-01-02T03:04:05+0000") = JStr "03:04"
  /\ format_time (JStr "2024-01-02T03:04:05+05:30") = JStr "03:04"
  /\ format_time (JStr "20240102T030405Z") = JStr "03:04"
  /\ format_time (JStr "2024-W01-2T03:04") = JStr "03:04"
  /\ format_time (JStr "2024-01-02T03:04z") = JStr "2024-01-02T03:04z"
  /\ format_time (JStr "2024-01-02T24:00") = JStr "2024-01-02T24:00".
Proof.
  split; [| split; [| split; [| split; [| split; [| repeat split]]]]].
  - intros kv E. unfold rendered_time, dict_get. rewrite E. reflexivity.
  - apply format_time_falsy.
  - intros s dt -> E. rewrite format_time_str, E.
    destruct (fromisoformat_time _ _ E) as [Hh Hm].
    destruct (two_digit_numeral (hour dt) ltac:(lia)) as [A1 A2].
    destruct (two_digit_numeral (minute dt) ltac:(lia)) as [B1 B2].
    repeat split; assumption.
  - intros s -> E. rewrite format_time_str, E. reflexivity.
  - intros T N. unfold format_time. rewrite T. simpl.
    destruct v; try reflexivity. exfalso. exact (N s eq_refl).
Qed.

(** C5 (as stated) fails: a field holding [0] is neither absent nor a
    timestamp and is rendered as the empty string, not as [0]; and in
    ["2024-01-02Z03:04"], which parses as it stands, the ["Z"] is replaced
    although it is not at the end, so that the string no longer parses and
    goes through unchanged. *)
Lemma format_time_not_as_claimed :
  ~ time_as_claimed (lookup "发布时间" [("发布时间", JInt 0)])
                    (rendered_time [("发布时间", JInt 0)])
  /\ ~ time_as_claimed (lookup "发布时间" [("发布时间", JStr "2024-01-02Z03:04")])
                       (rendered_time [("发布时间", JStr "2024-01-02Z03:04")]).
Proof.
  split; vm_compute; discriminate.
Qed.

(** ** Fields of an item *)

Lemma item_html_dict (kv : list (string * json)) :
  item_html (JObj kv) = Ok (card_of kv).
Proof. reflexivity. Qed.

Lemma dict_get_absent (kv : list (string * json)) (key : string) (default : json) :
  lookup key kv = None -> dict_get kv key default = default.
Proof. unfold dict_get. intros ->. reflexivity. Qed.

Lemma dict_get_present (kv : list (string * json)) (key : string) (default v : json) :
  lookup key kv = Some v -> dict_get kv key default = v.
Proof. unfold dict_get. intros ->. reflexivity. Qed.

Lemma slot_of_dict_get (kv : list (string * json)) (key default : string) :
  slot_of kv key default (dict_get kv key (JStr default)).
Proof. unfold slot_of, dict_get. destruct (lookup key kv); reflexivity. Qed.

(** The page of a day with a single item. *)
Lemma daily_html_single (now_year : Z) (d : pydate) (kv : list (string * json))
    (output_file : path) (previous_date next_date : option pydate) :
  hashable (section_of kv) = true ->
  daily_html now_year d (JArr [JObj kv]) output_file previous_date next_date
  = Ok (daily_frame now_year d output_file previous_date next_date
          (section_frame (section_of kv) (card_of kv ++ []) ++ [])).
Proof.
  intros H. unfold daily_html, group_by_section. cbn [py_iter bind group_entries].
  unfold group_step. cbn [py_get bind]. fold (section_of kv). rewrite H.
  reflexivity.
Qed.

(** ** Results and lists of pieces *)

Lemma bind_ok {A B} (r : result A) (k : A -> result B) (b : B) :
  bind r k = Ok b -> exists a, r = Ok a /\ k a = Ok b.
Proof.
  destruct r as [a | e]; simpl; [eauto | discriminate].
Qed.

Lemma mapM_ok_in {A B} (f : A -> result B) (l : list A) (bs : list B) :
  mapM f l = Ok bs -> forall a, In a l -> exists b, f a = Ok b /\ In b bs.
Proof.
  revert bs. induction l as [| x l IH]; intros bs H a Ha; [destruct Ha |].
  simpl in H. apply bind_ok in H. destruct H as (b & Hb & H).
  apply bind_ok in H. destruct H as (bs' & Hbs & H). injection H as <-.
  destruct Ha as [-> | Ha].
  - exists b. split; [exact Hb | left; reflexivity].
  - destruct (IH bs' Hbs a Ha) as (b' & Hb' & Hin).
    exists b'. split; [exact Hb' | right; exact Hin].
Qed.

Lemma mapM_all_ok {A B} (f : A -> result B) (l : list A) :
  (forall a, In a l -> exists b, f a = Ok b) -> exists bs, mapM f l = Ok bs.
Proof.
  induction l as [| x l IH]; intros H; simpl.
  - eexists; reflexivity.
  - destruct (H x (or_introl eq_refl)) as (b & ->).
    destruct IH as (bs & ->); [intros a Ha; apply H; right; exact Ha |].
    simpl. eexists; reflexivity.
Qed.

Lemma infix_refl (h : html) : infix_of h h.
Proof. exists [], []. rewrite app_nil_r. reflexivity. Qed.

Lemma infix_trans (a b c : html) : infix_of a b -> infix_of b c -> infix_of a c.
Proof.
  intros (p1 & q1 & ->) (p2 & q2 & ->).
  exists (p2 ++ p1), (q1 ++ q2). rewrite <- !app_assoc. reflexivity.
Qed.

Lemma infix_concat (b : html) (bs : list html) : In b bs -> infix_of b (List.concat bs).
Proof.
  intros H. apply in_split in H. destruct H as (l1 & l2 & ->).
  exists (List.concat l1), (List.concat l2).
  rewrite concat_app. reflexivity.
Qed.

Lemma infix_section_frame (k : json) (cards : html) :
  infix_of cards (section_frame k cards).
Proof. unfold section_frame. eexists _, _. reflexivity. Qed.

Lemma infix_daily_frame (now_year : Z) (d : pydate) (output_file : path)
    (p n : option pydate) (sections_html : html) :
  infix_of sections_html (daily_frame now_year d output_file p n sections_html).
Proof. unfold daily_frame. eexists _, _. reflexivity. Qed.

(** ** Grouping by section *)

Lemma add_to_section_grows (S : list (json * list json)) (s x k : json)
    (es : list json) :
  In (k, es) S ->
  exists es', In (k, es') (add_to_section S s x) /\ incl es es'.
Proof.
  induction S as [| [k0 es0] S IH]; intros H; [destruct H |].
  simpl. destruct H as [H | H].
  - injection H as -> ->. destruct (key_eqb k s).
    + exists (es ++ [x]). split; [left; reflexivity | apply incl_appl, incl_refl].
    + exists es. split; [left; reflexivity | apply incl_refl].
  - destruct (key_eqb k0 s).
    + exists es. split; [right; exact H | apply incl_refl].
    + destruct (IH H) as (es' & Hin & Hi). exists es'. split; [right; exact Hin | exact Hi].
Qed.

Lemma add_to_section_files (S : list (json * list json)) (s x : json) :
  exists k es, In (k, es) (add_to_section S s x) /\ same_key k s /\ In x es.
Proof.
  induction S as [| [k0 es0] S IH]; simpl.
  - exists s, [x]. repeat split; [left; reflexivity | left; reflexivity | left; reflexivity].
  - destruct (key_eqb k0 s) eqn:E.
    + exists k0, (es0 ++ [x]). repeat split; [left; reflexivity | right; exact E |].
      apply in_or_app. right. left. reflexivity.
    + destruct IH as (k & es & Hin & Hk & Hx).
      exists k, es. repeat split; [right; exact Hin | exact Hk | exact Hx].
Qed.

Lemma group_step_ok (S S' : list (json * list json)) (e : json) :
  group_step S e = Ok S' ->
  exists kv, e = JObj kv /\ hashable (section_of kv) = true
             /\ S' = add_to_section S (section_of kv) e.
Proof.
  unfold group_step. destruct e; simpl; try discriminate.
  fold (section_of kv). destruct (hashable (section_of kv)) eqn:H; [| discriminate].
  intros [= <-]. exists kv. auto.
Qed.

Lemma group_entries_grows (entries : list json) :
  forall S S' k es,
    group_entries S entries = Ok S' -> In (k, es) S ->
    exists es', In (k, es') S' /\ incl es es'.
Proof.
  induction entries as [| e entries IH]; intros S S' k es H Hin; simpl in H.
  - injection H as <-. exists es. split; [exact Hin | apply incl_refl].
  - apply bind_ok in H. destruct H as (S1 & H1 & H).
    apply group_step_ok in H1. destruct H1 as (kv & -> & _ & ->).
    destruct (add_to_section_grows S (section_of kv) (JObj kv) k es Hin)
      as (es1 & Hin1 & Hi1).
    destruct (IH _ _ _ _ H Hin1) as (es' & Hin' & Hi').
    exists es'. split; [exact Hin' | eapply incl_tran; eassumption].
Qed.

Lemma group_entries_files (entries : list json) :
  forall S S' e,
    group_entries S entries = Ok S' -> In e entries ->
    exists kv k es,
      e = JObj kv /\ hashable (section_of kv) = true
      /\ In (k, es) S' /\ same_key k (section_of kv) /\ In e es.
Proof.
  induction entries as [| e0 entries IH]; intros S S' e H Hin; [destruct Hin |].
  simpl in H. apply bind_ok in H. destruct H as (S1 & H1 & H).
  destruct Hin as [-> | Hin]; [| eapply IH; eassumption].
  apply group_step_ok in H1. destruct H1 as (kv & -> & Hh & ->).
  destruct (add_to_section_files S (section_of kv) (JObj kv)) as (k & es & Hk & Hs & Hx).
  destruct (group_entries_grows _ _ _ _ _ H Hk) as (es' & Hin' & Hi').
  exists kv, k, es'. repeat split; try assumption. apply Hi', Hx.
Qed.

Lemma group_entries_ok (entries : list json) :
  Forall well_formed_entry entries ->
  forall S, exists S', group_entries S entries = Ok S'.
Proof.
  induction 1 as [| e entries (kv & -> & Hh) _ IH]; intros S; simpl.
  - eexists; reflexivity.
  - unfold group_step. cbn [py_get bind]. fold (section_of kv). rewrite Hh.
    apply IH.
Qed.

(** Every entry filed in a section came from the entries or was there. *)
Lemma add_to_section_members (S : list (json * list json)) (s x k : json)
    (es : list json) :
  In (k, es) (add_to_section S s x) ->
  forall e, In e es -> e = x \/ exists k' es', In (k', es') S /\ In e es'.
Proof.
  induction S as [| [k0 es0] S IH]; simpl; intros H e He.
  - destruct H as [H | []]. injection H as <- <-. destruct He as [<- | []]. auto.
  - destruct (key_eqb k0 s).
    + destruct H as [H | H].
      * injection H as <- <-. apply in_app_or in He. destruct He as [He | [<- | []]].
        -- right. exists k0, es0. split; [left; reflexivity | exact He].
        -- left. reflexivity.
      * right. exists k, es. split; [right; exact H | exact He].
    + destruct H as [H | H].
      * injection H as <- <-. right. exists k0, es0. split; [left; reflexivity | exact He].
      * destruct (IH H e He) as [-> | (k' & es' & Hin & He')]; [left; reflexivity |].
        right. exists k', es'. split; [right; exact Hin | exact He'].
Qed.

Lemma group_entries_members (entries : list json) :
  forall S S' k es,
    group_entries S entries = Ok S' -> In (k, es) S' ->
    forall e, In e es ->
      (exists kv, e = JObj kv) \/ exists k' es', In (k', es') S /\ In e es'.
Proof.
  induction entries as [| e0 entries IH]; intros S S' k es H Hin e He; simpl in H.
  - injection H as <-. right. exists k, es. auto.
  - apply bind_ok in H. destruct H as (S1 & H1 & H).
    apply group_step_ok in H1. destruct H1 as (kv & -> & _ & ->).
    destruct (IH _ _ _ _ H Hin e He) as [D | (k' & es' & Hin' & He')]; [left; exact D |].
    destruct (add_to_section_members _ _ _ _ _ Hin' e He')
      as [-> | Hold]; [left; eexists; reflexivity | right; exact Hold].
Qed.

(** ** The daily page *)

Lemma daily_html_ok (now_year : Z) (d : pydate) (content : json)
    (output_file : path) (p n : option pydate) (h : html) :
  daily_html now_year d content output_file p n = Ok h ->
  exists entries S sections_html,
    py_iter content = Ok entries
    /\ group_entries [] entries = Ok S
    /\ mapM (fun ni => generate_section_html (fst ni) (snd ni)) S = Ok sections_html
    /\ h = daily_frame now_year d output_file p n (List.concat sections_html).
Proof.
  unfold daily_html, group_by_section. intros H.
  apply bind_ok in H. destruct H as (S & HS & H).
  apply bind_ok in HS. destruct HS as (entries & He & HS).
  apply bind_ok in H. destruct H as (sh & Hsh & H). injection H as <-.
  exists entries, S, sh. auto.
Qed.

Lemma section_html_ok (k : json) (es : list json) :
  (forall e, In e es -> exists kv, e = JObj kv) ->
  exists sh, generate_section_html k es = Ok sh.
Proof.
  intros H. unfold generate_section_html.
  destruct (mapM_all_ok item_html es) as (cards & ->).
  - intros e He. destruct (H e He) as (kv & ->). eexists. apply item_html_dict.
  - simpl. eexists; reflexivity.
Qed.

(** The page is built exactly for the renderable contents. *)
Lemma daily_html_renderable (now_year : Z) (d : pydate) (content : json)
    (output_file : path) (p n : option pydate) :
  (exists h, daily_html now_year d content output_file p n = Ok h)
  <-> renderable content.
Proof.
  split.
  - intros (h & H). apply daily_html_ok in H.
    destruct H as (entries & S & sh & He & HS & _ & _).
    exists entries. split; [exact He |]. apply Forall_forall. intros e Hin.
    destruct (group_entries_files _ _ _ _ HS Hin) as (kv & k & es & -> & Hh & _).
    exists kv. auto.
  - intros (entries & He & Hw).
    destruct (group_entries_ok entries Hw []) as (S & HS).
    unfold daily_html, group_by_section. rewrite He. cbn [bind]. rewrite HS. cbn [bind].
    destruct (mapM_all_ok (fun ni => generate_section_html (fst ni) (snd ni)) S)
      as (sh & ->).
    + intros [k es] Hin. simpl. apply section_html_ok. intros e Hein.
      destruct (group_entries_members _ _ _ _ _ HS Hin e Hein)
        as [D | (k' & es' & [] & _)]. exact D.
    + simpl. eexists; reflexivity.
Qed.

(** Every entry of the content is shown on the page: its card stands in
    the frame of its section. *)
Lemma daily_html_item (now_year : Z) (d : pydate) (content : json)
    (output_file : path) (p n : option pydate) (h : html)
    (entries : list json) (kv : list (string * json)) :
  daily_html now_year d content output_file p n = Ok h ->
  py_iter content = Ok entries ->
  In (JObj kv) entries ->
  exists k cards,
    same_key k (section_of kv)
    /\ infix_of (section_frame k cards) h
    /\ infix_of (card_of kv) cards.
Proof.
  intros H He Hin. apply daily_html_ok in H.
  destruct H as (entries' & S & sh & He' & HS & Hsh & ->).
  rewrite He in He'. injection He' as <-.
  destruct (group_entries_files _ _ _ _ HS Hin) as (kv' & k & es & E & _ & Hk & Hs & Hes).
  injection E as <-.
  destruct (mapM_ok_in _ _ _ Hsh (k, es) Hk) as (s1 & Hs1 & Hin1). simpl in Hs1.
  unfold generate_section_html in Hs1. apply bind_ok in Hs1.
  destruct Hs1 as (cards & Hc & E). injection E as <-.
  destruct (mapM_ok_in _ _ _ Hc (JObj kv) Hes) as (c & Hci & Hcin).
  rewrite item_html_dict in Hci. injection Hci as <-.
  exists k, (List.concat cards). split; [exact Hs | split].
  - eapply infix_trans; [apply infix_concat, Hin1 | apply infix_daily_frame].
  - apply infix_concat, Hcin.
Qed.

Lemma same_key_str (k : json) (s : string) : same_key k (JStr s) -> k = JStr s.
Proof.
  intros [H | H]; [exact H |].
  destruct k; simpl in H; try discriminate.
  apply String.eqb_eq in H. subst. reflexivity.
Qed.

(** Settle [starts_with] and [ends_with] between two given texts. *)
Ltac affix :=
  match goal with
  | |- ends_with ?s ?suf =>
      exists (substring 0 (String.length s - String.length suf) s); vm_compute; reflexivity
  | |- starts_with ?s ?pre =>
      exists (substring (String.length pre) (String.length s - String.length pre) s);
      vm_compute; reflexivity
  end.

(** The texts of a card around the values of the item. *)
Lemma item_card_shown (link title category source time body : json) :
  item_shown link title category source time body
             (item_card link title category source time body).
Proof.
  unfold item_shown, item_card. do 6 eexists.
  split; [reflexivity |]. repeat split; affix.
Qed.

(** The texts of a section around its name and its cards. *)
Lemma section_frame_shown (k : json) (cards : html) :
  section_shown k cards (section_frame k cards).
Proof.
  unfold section_shown, section_frame. do 3 eexists.
  split; [reflexivity |]. split; affix.
Qed.

(** A call of [generate_daily_page] that returns has written the page
    built for the record. *)
Lemma generate_daily_page_ok (now_year : Z) (item : news_day)
    (previous_date next_date : option pydate) (w w' : world) (out : path) :
  generate_daily_page now_year item previous_date next_date w = (Ok out, w') ->
  exists h,
    daily_html now_year (date item) (content item) (get_daily_path (date item))
      previous_date next_date = Ok h
    /\ out = get_daily_path (date item)
    /\ written w' = written w ++ [(out, h)].
Proof.
  rewrite generate_daily_page_spec. cbv zeta.
  destruct (daily_html _ _ _ _ _ _) as [h | e]; [| discriminate].
  destruct (encodable h); [| discriminate].
  intros H. injection H as <- <-. exists h. auto.
Qed.

(** C7: an item without a title, a category, a source or a link is shown
    with ["No Title"], ["General"], ["Unknown"] and ["#"] in their places,
    and with the empty string for a missing body: the title stands in the
    hyperlink of the card and the link is its target, the category in the
    badge, the source in the subtitle, the body in the paragraph.  This is
    the card that the daily page carries for the item, in the text built
    and in the file written. *)
Theorem missing_fields_default (kv : list (string * json)) :
  exists link title category source time body,
    item_html (JObj kv) = Ok (item_card link title category source time body)
    /\ item_shown link title category source time body
                  (item_card link title category source time body)
    /\ (lookup "标题" kv = None -> title = JStr "No Title")
    /\ (lookup "分类" kv = None -> category = JStr "General")
    /\ (lookup "来源" kv = None -> source = JStr "Unknown")
    /\ (lookup "链接" kv = None -> link = JStr "#")
    /\ (lookup "内容" kv = None -> body = JStr "")
    /\ (forall now_year d content output_file p n h entries,
          daily_html now_year d content output_file p n = Ok h ->
          py_iter content = Ok entries ->
          In (JObj kv) entries ->
          infix_of (item_card link title category source time body) h)
    /\ (forall now_year item p n w w' out entries,
          generate_daily_page now_year item p n w = (Ok out, w') ->
          py_iter (content item) = Ok entries ->
          In (JObj kv) entries ->
          exists h,
            written w' = written w ++ [(out, h)]
            /\ infix_of (item_card link title category source time body) h).
Proof.
  exists (dict_get kv "链接" (JStr "#")), (dict_get kv "标题" (JStr "No Title")),
    (dict_get kv "分类" (JStr "General")), (dict_get kv "来源" (JStr "Unknown")),
    (rendered_time kv), (dict_get kv "内容" (JStr "")).
  split; [reflexivity |].
  split; [apply item_card_shown |].
  repeat (split; [apply dict_get_absent |]).
  assert (P : forall now_year d content output_file p n h entries,
             daily_html now_year d content output_file p n = Ok h ->
             py_iter content = Ok entries ->
             In (JObj kv) entries ->
             infix_of (card_of kv) h).
  { intros now_year d content output_file p n h entries H He Hin.
    destruct (daily_html_item _ _ _ _ _ _ _ _ _ H He Hin) as (k & cards & _ & Hf & Hc).
    eapply infix_trans; [exact Hc |].
    eapply infix_trans; [apply infix_section_frame | exact Hf]. }
  split; [exact P |].
  intros now_year item p n w w' out entries H He Hin.
  apply generate_daily_page_ok in H. destruct H as (h & H & _ & Hw).
  exists h. split; [exact Hw | exact (P _ _ _ _ _ _ _ _ H He Hin)].
Qed.

Example item_without_fields :
  item_html (JObj [])
  = Ok (item_card (JStr "#") (JStr "No Title") (JStr "General") (JStr "Unknown")
                  (JStr "") (JStr "")).
Proof. reflexivity. Qed.

(** C10: each of the title, the category, the source, the link, the
    section and the body shows the value the item holds under its key,
    the empty string included, and the default only when the key is
    absent; none of the five defaults is the empty string, so that an
    empty value and an absent one are told apart on the page.  The publish
    time alone goes through [format_time]: it is shown empty both when the
    key is absent and when its value is the empty string.  The values
    stand in the card of the item, and the card under the header of its
    section, whose name is the section value of the item: the empty string
    when that is the value, not ["Uncategorized"]. *)
Theorem present_fields_shown (kv : list (string * json)) :
  exists link title category source time body,
    item_html (JObj kv) = Ok (item_card link title category source time body)
    /\ item_shown link title category source time body
                  (item_card link title category source time body)
    /\ slot_of kv "标题" "No Title" title
    /\ slot_of kv "分类" "General" category
    /\ slot_of kv "来源" "Unknown" source
    /\ slot_of kv "链接" "#" link
    /\ slot_of kv "内容" "" body
    /\ slot_of kv "版块" "Uncategorized" (section_of kv)
    /\ (forall key default, lookup key kv = Some (JStr "") ->
          dict_get kv key default = JStr "")
    /\ Forall (fun default => JStr "" <> JStr default)
              ["No Title"; "General"; "Unknown"; "#"; "Uncategorized"]
    /\ (lookup "发布时间" kv = None -> time = JStr "")
    /\ (forall v, lookup "发布时间" kv = Some v -> time = format_time v)
    /\ (lookup "发布时间" kv = None \/ lookup "发布时间" kv = Some (JStr "") ->
          time = JStr "")
    /\ (forall now_year d content output_file p n h entries,
          daily_html now_year d content output_file p n = Ok h ->
          py_iter content = Ok entries ->
          In (JObj kv) entries ->
          exists k cards frame,
            same_key k (section_of kv)
            /\ (forall s, section_of kv = JStr s -> k = JStr s)
            /\ section_shown k cards frame
            /\ infix_of frame h
            /\ infix_of (item_card link title category source time body) cards)
    /\ (lookup "版块" kv = Some (JStr "") ->
        forall now_year item p n w w' out entries,
          generate_daily_page now_year item p n w = (Ok out, w') ->
          py_iter (content item) = Ok entries ->
          In (JObj kv) entries ->
          exists h cards frame,
            written w' = written w ++ [(out, h)]
            /\ section_shown (JStr "") cards frame
            /\ infix_of frame h
            /\ infix_of (item_card link title category source time body) cards).
Proof.
  exists (dict_get kv "链接" (JStr "#")), (dict_get kv "标题" (JStr "No Title")),
    (dict_get kv "分类" (JStr "General")), (dict_get kv "来源" (JStr "Unknown")),
    (rendered_time kv), (dict_get kv "内容" (JStr "")).
  split; [reflexivity |].
  split; [apply item_card_shown |].
  repeat (split; [apply slot_of_dict_get |]).
  split; [intros key default H; apply dict_get_present, H |].
  split; [repeat constructor; discriminate |].
  split; [unfold rendered_time, dict_get; intros ->; reflexivity |].
  split; [unfold rendered_time, dict_get; intros v ->; reflexivity |].
  split; [unfold rendered_time, dict_get; intros [-> | ->]; reflexivity |].
  assert (P : forall now_year d content output_file p n h entries,
             daily_html now_year d content output_file p n = Ok h ->
             py_iter content = Ok entries ->
             In (JObj kv) entries ->
             exists k cards frame,
               same_key k (section_of kv)
               /\ (forall s, section_of kv = JStr s -> k = JStr s)
               /\ section_shown k cards frame
               /\ infix_of frame h
               /\ infix_of (card_of kv) cards).
  { intros now_year d content output_file p n h entries H He Hin.
    destruct (daily_html_item _ _ _ _ _ _ _ _ _ H He Hin) as (k & cards & Hk & Hf & Hc).
    exists k, cards, (section_frame k cards).
    split; [exact Hk | split; [| split; [apply section_frame_shown | split; assumption]]].
    intros s Hs. rewrite Hs in Hk. apply same_key_str, Hk. }
  split; [exact P |].
  intros Hs now_year item p n w w' out entries H He Hin.
  apply generate_daily_page_ok in H. destruct H as (h & H & _ & Hw).
  destruct (P _ _ _ _ _ _ _ _ H He Hin) as (k & cards & frame & _ & Hk & Hf & Hi & Hc).
  exists h, cards, frame. split; [exact Hw |].
  assert (E : k = JStr "") by (apply Hk; unfold section_of; apply dict_get_present, Hs).
  subst k. exact (conj Hf (conj Hi Hc)).
Qed.

Example empty_section_name :
  daily_html 2026 (mkdate 2024 1 2) (JArr [JObj [("版块", JStr ""); ("标题", JStr "")]])
             (get_daily_path (mkdate 2024 1 2)) None None
  = Ok (daily_frame 2026 (mkdate 2024 1 2) (get_daily_path (mkdate 2024 1 2)) None None
          (section_frame (JStr "")
             (item_card (JStr "#") (JStr "") (JStr "General") (JStr "Unknown")
                        (JStr "") (JStr "")))).
Proof. reflexivity. Qed.

Lemma mapM_map {A B} (f : A -> result B) (g : A -> B) (l : list A) :
  (forall a, In a l -> f a = Ok (g a)) -> mapM f l = Ok (map g l).
Proof.
  induction l as [| a l IH]; intros H; [reflexivity |].
  cbn [mapM map]. rewrite (H a (or_introl eq_refl)). cbn [bind].
  rewrite IH; [reflexivity |]. intros b Hb. apply H. right. exact Hb.
Qed.
















(** A day whose only title is a lone surrogate, as [json.load] reads it
    from the escape [\ud800]. *)
Example surrogate_title :
  generate_daily_page 2026
    (mkday (mkdate 2024 1 2)
           (JArr [JObj [("标题", JStr lone_surrogate)]])
           ["content"; "2024-01-02.json"])
    None None empty_world
  = (Raise UnicodeEncodeError,
     mkworld [["public"; "2024"; "01"]] [(["public"; "2024"; "01"; "02.html"], [])] []).
Proof. vm_compute. reflexivity. Qed.


(** ** Relative links *)

Lemma follow_app (dir : path) (r1 r2 : list string) :
  follow dir (r1 ++ r2) = follow (follow dir r1) r2.
Proof. unfold follow. apply fold_left_app. Qed.

Lemma follow_up (pre start : path) :
  follow (pre ++ start) (repeat ".." (List.length start)) = pre.
Proof.
  induction start as [| c start IH] using rev_ind; simpl.
  - apply app_nil_r.
  - rewrite length_app, Nat.add_comm. simpl.
    rewrite app_assoc, removelast_last. exact IH.
Qed.

Lemma follow_down (pre p : path) : ~ In ".." p -> follow pre p = pre ++ p.
Proof.
  revert pre. induction p as [| c p IH]; intros pre H; simpl.
  - symmetry. apply app_nil_r.
  - destruct (String.eqb_spec c "..") as [-> | N].
    + exfalso. apply H. left. reflexivity.
    + rewrite IH, <- app_assoc; [reflexivity |].
      intros Hin. apply H. right. exact Hin.
Qed.

Lemma follow_relpath (p : path) :
  ~ In ".." p ->
  forall pre start, follow (pre ++ start) (relpath_list p start) = pre ++ p.
Proof.
  intros H.
  assert (G : forall q pre start, ~ In ".." q ->
            follow (pre ++ start) (repeat ".." (List.length start) ++ q) = pre ++ q).
  { intros q pre start Hq. rewrite follow_app, follow_up. apply follow_down, Hq. }
  induction p as [| c p IH]; intros pre start.
  - destruct start; [exact (G [] pre [] H) | exact (G [] pre (_ :: _) H)].
  - destruct start as [| s start]; [exact (G (c :: p) pre [] H) |].
    cbn [relpath_list].
    destruct (String.eqb_spec c s) as [-> | N];
      [| exact (G (c :: p) pre (s :: start) H)].
    change (pre ++ s :: start) with (pre ++ [s] ++ start).
    change (pre ++ s :: p) with (pre ++ [s] ++ p).
    rewrite !app_assoc. apply IH. intros Hin. apply H. right. exact Hin.
Qed.

Lemma string_length_app (a b : string) :
  String.length (a ++ b)%string = (String.length a + String.length b)%nat.
Proof.
  induction a as [| c a IH]; simpl; [reflexivity | rewrite IH; reflexivity].
Qed.

Lemma decimal_not_dotdot (n : Z) (s : string) : decimal n s = true -> s <> "..".
Proof. intros H ->. discriminate H. Qed.

Lemma daily_path_no_dotdot (d : pydate) :
  valid_date d = true -> ~ In ".." (get_daily_path d).
Proof.
  intros V. destruct (valid_date_bounds d V) as (Hy & Hm & Hd).
  destruct (year_field (year d) Hy) as (Y & _).
  destruct (two_digit_fields (month d) ltac:(lia)) as [M _].
  unfold get_daily_path, PUBLIC_DIR. simpl.
  intros [H | [H | [H | [H | []]]]].
  - discriminate H.
  - exact (decimal_not_dotdot _ _ Y H).
  - exact (decimal_not_dotdot _ _ M H).
  - apply (f_equal String.length) in H. rewrite string_length_app in H.
    simpl in H. lia.
Qed.

(** The link computed between two daily pages leads to its target. *)
Lemma nav_link_leads (d1 d2 : pydate) :
  valid_date d2 = true ->
  links_to (get_daily_path d1)
           (get_relative_path (get_daily_path d1) (get_daily_path d2)) d2.
Proof.
  intros V.
  pose proof (follow_relpath (get_daily_path d2) (daily_path_no_dotdot d2 V) []
                (parent (get_daily_path d1))) as F.
  simpl app in F.
  exists (relpath_list (get_daily_path d2) (parent (get_daily_path d1))).
  assert (N : relpath_list (get_daily_path d2) (parent (get_daily_path d1)) <> []).
  { intros E. rewrite E in F. discriminate F. }
  split; [exact N | split; [| exact F]].
  unfold get_relative_path, relpath.
  destruct (relpath_list (get_daily_path d2) (parent (get_daily_path d1)));
    [contradiction | reflexivity].
Qed.

(** ** Neighbours *)

Lemma sorted_nth {A} (R : A -> A -> Prop) (l : list A) :
  StronglySorted R l ->
  forall j i a b, (j < i)%nat -> nth_error l j = Some a -> nth_error l i = Some b ->
    R a b.
Proof.
  induction 1 as [| x l S IH F]; intros j i a b Hji Ha Hb.
  - destruct j; discriminate.
  - destruct i as [| i]; [lia |]. simpl in Hb. destruct j as [| j]; simpl in Ha.
    + injection Ha as <-. rewrite Forall_forall in F.
      apply F. eapply nth_error_In, Hb.
    + eapply IH; [| eassumption | eassumption]. lia.
Qed.

Lemma enumerate_from_in {A} (l : list A) :
  forall start i a, nth_error l i = Some a ->
    In (Z.of_nat (start + i), a)
       (combine (map Z.of_nat (seq start (List.length l))) l).
Proof.
  induction l as [| x l IH]; intros start i a H; [destruct i; discriminate |].
  simpl. destruct i as [| i]; simpl in H.
  - injection H as <-. left. rewrite Nat.add_0_r. reflexivity.
  - right. replace (start + S i)%nat with (S start + i)%nat by lia.
    apply IH, H.
Qed.

Lemma enumerate_in {A} (l : list A) (i : nat) (a : A) :
  nth_error l i = Some a -> In (Z.of_nat i, a) (enumerate l).
Proof. intros H. apply (enumerate_from_in l 0 i a H). Qed.

Lemma neighbours_next (data : list news_day) (j : nat) :
  snd (neighbours data (Z.of_nat (S j))) = option_map date (nth_error data j).
Proof.
  unfold neighbours, date_at. cbn [snd].
  replace (0 <? Z.of_nat (S j)) with true by (symmetry; apply Z.ltb_lt; lia).
  replace (Z.to_nat (Z.of_nat (S j) - 1)) with j by lia. reflexivity.
Qed.

Lemma neighbours_first (data : list news_day) : snd (neighbours data (Z.of_nat 0)) = None.
Proof. reflexivity. Qed.

Lemma neighbours_previous (data : list news_day) (i : nat) (item : news_day) :
  nth_error data i = Some item ->
  fst (neighbours data (Z.of_nat i)) = option_map date (nth_error data (S i)).
Proof.
  intros H. unfold neighbours, date_at. cbn [fst].
  assert (Hi : (i < List.length data)%nat) by (apply nth_error_Some; congruence).
  destruct (nth_error data (S i)) eqn:E.
  - assert (Hs : (S i < List.length data)%nat) by (apply nth_error_Some; congruence).
    replace (Z.of_nat i <? Z.of_nat (List.length data) - 1) with true
      by (symmetry; apply Z.ltb_lt; lia).
    replace (Z.to_nat (Z.of_nat i + 1)) with (S i) by lia. rewrite E. reflexivity.
  - apply nth_error_None in E.
    replace (Z.of_nat i <? Z.of_nat (List.length data) - 1) with false
      by (symmetry; apply Z.ltb_ge; lia).
    reflexivity.
Qed.

Lemma daily_html_nav (now_year : Z) (d : pydate) (content : json)
    (output_file : path) (p n : option pydate) (h : html) :
  daily_html now_year d content output_file p n = Ok h ->
  In (Lit (nav_next output_file n)) h /\ In (Lit (nav_previous output_file p)) h.
Proof.
  intros H. apply daily_html_ok in H. destruct H as (_ & _ & sh & _ & _ & _ & ->).
  unfold daily_frame. split; simpl; tauto.
Qed.

(** ** The pages written by a run *)

Lemma daily_job_spec (now_year : Z) (data : list news_day) (i : Z)
    (item : news_day) (w : world) :
  let output_file := get_daily_path (date item) in
  (let '(prev_date, next_date) := neighbours data i in
   generate_daily_page now_year item prev_date next_date ;;; ret tt) w
  = match daily_html now_year (date item) (content item) output_file
            (fst (neighbours data i)) (snd (neighbours data i)) with
    | Ok h =>
        if encodable h then
          (Ok tt,
           mkworld (ensured w ++ [parent output_file])
                   (written w ++ [(output_file, h)])
                   (stdout w ++ [Generated output_file]))
        else
          (Raise UnicodeEncodeError,
           mkworld (ensured w ++ [parent output_file])
                   (written w ++ [(output_file, [])]) (stdout w))
    | Raise e =>
        (Raise e, mkworld (ensured w ++ [parent output_file]) (written w) (stdout w))
    end.
Proof.
  destruct (neighbours data i) as [p n]. cbn [fst snd]. unfold and_then.
  rewrite generate_daily_page_spec. cbv zeta.
  destruct (daily_html _ _ _ _ _ _) as [h | e]; [| reflexivity].
  destruct (encodable h); reflexivity.
Qed.

Lemma for_each_pages (now_year : Z) (data : list news_day) (l : list (Z * news_day)) :
  forall w w',
    for_each l (fun ii =>
      let '(i, item) := ii in
      let '(prev_date, next_date) := neighbours data i in
      generate_daily_page now_year item prev_date next_date ;;; ret tt) w
    = (Ok tt, w') ->
    incl (written w) (written w')
    /\ forall i item, In (i, item) l ->
         exists h,
           daily_html now_year (date item) (content item) (get_daily_path (date item))
             (fst (neighbours data i)) (snd (neighbours data i)) = Ok h
           /\ In (get_daily_path (date item), h) (written w').
Proof.
  induction l as [| [i0 item0] l IH]; intros w w' H.
  - injection H as <-. split; [apply incl_refl | intros i item []].
  - cbn [for_each] in H. unfold and_then at 1 in H.
    rewrite daily_job_spec in H. cbv zeta in H.
    destruct (daily_html now_year (date item0) (content item0) _ _ _) as [h0 | e] eqn:E;
      [| discriminate].
    destruct (encodable h0); [| discriminate].
    apply IH in H. destruct H as [Hi Hp]. cbn [written] in Hi. split.
    + intros x Hx. apply Hi, in_or_app. left. exact Hx.
    + intros i item [Heq | Hin]; [| apply Hp, Hin].
      injection Heq as <- <-. exists h0. split; [exact E |].
      apply Hi, in_or_app. right. left. reflexivity.
Qed.

Lemma publish_pages (now_year : Z) (data : list news_day) (w w' : world) :
  publish now_year data w = (Ok tt, w') ->
  forall i item, nth_error data i = Some item ->
    exists h,
      daily_html now_year (date item) (content item) (get_daily_path (date item))
        (fst (neighbours data (Z.of_nat i))) (snd (neighbours data (Z.of_nat i))) = Ok h
      /\ In (get_daily_path (date item), h) (written w').
Proof.
  intros H i item Hn. destruct data as [| r data]; [destruct i; discriminate |].
  unfold publish in H. unfold and_then at 1 in H.
  destruct (generate_index now_year (r :: data) w) as [[[] | e] w1]; [| discriminate].
  apply for_each_pages in H. destruct H as [_ H].
  apply H, enumerate_in, Hn.
Qed.

(** C4: in a dataset sorted newest first, the page of a record carries an
    enabled "Next Day" link to the page of the record before it, which is
    not earlier (later, when the dates are distinct), and an enabled
    "Previous Day" link to the page of the record after it; the page of the
    first record has the disabled "Next Day" button and the page of the
    last record the disabled "Previous Day" button.  These are the pages
    a run writes. *)
Theorem neighbour_links (data : list news_day) (i : nat) (item : news_day) :
  descending data ->
  nth_error data i = Some item ->
  let out := get_daily_path (date item) in
  let prev_date := fst (neighbours data (Z.of_nat i)) in
  let next_date := snd (neighbours data (Z.of_nat i)) in
  (forall now_year w w',
     publish now_year data w = (Ok tt, w') ->
     exists h, In (out, h) (written w')
               /\ In (Lit (nav_next out next_date)) h
               /\ In (Lit (nav_previous out prev_date)) h)
  /\ (forall j later,
        i = S j -> nth_error data j = Some later ->
        nav_next out next_date
        = next_enabled (get_relative_path out (get_daily_path (date later)))
        /\ date_le (date item) (date later)
        /\ (strictly_descending data -> date_lt (date item) (date later))
        /\ (valid_date (date later) = true ->
            links_to out (get_relative_path out (get_daily_path (date later)))
                     (date later)))
  /\ (forall earlier,
        nth_error data (S i) = Some earlier ->
        nav_previous out prev_date
        = previous_enabled (get_relative_path out (get_daily_path (date earlier)))
        /\ date_le (date earlier) (date item)
        /\ (strictly_descending data -> date_lt (date earlier) (date item))
        /\ (valid_date (date earlier) = true ->
            links_to out (get_relative_path out (get_daily_path (date earlier)))
                     (date earlier)))
  /\ (i = 0%nat -> nav_next out next_date = next_disabled)
  /\ (nth_error data (S i) = None -> nav_previous out prev_date = previous_disabled).
Proof.
  intros D Hn out prev_date next_date.
  split; [| split; [| split; [| split]]].
  - intros now_year w w' H.
    destruct (publish_pages _ _ _ _ H i item Hn) as (h & E & Hin).
    exists h. split; [exact Hin | exact (daily_html_nav _ _ _ _ _ _ _ E)].
  - intros j later -> Hl. unfold next_date. rewrite neighbours_next, Hl.
    repeat split.
    + exact (sorted_nth _ _ D j (S j) later item (Nat.lt_succ_diag_r j) Hl Hn).
    + intros St. exact (sorted_nth _ _ St j (S j) later item (Nat.lt_succ_diag_r j) Hl Hn).
    + intros V. apply nav_link_leads, V.
  - intros earlier He. unfold prev_date. rewrite (neighbours_previous _ _ _ Hn), He.
    repeat split.
    + exact (sorted_nth _ _ D i (S i) item earlier (Nat.lt_succ_diag_r i) Hn He).
    + intros St. exact (sorted_nth _ _ St i (S i) item earlier (Nat.lt_succ_diag_r i) Hn He).
    + intros V. apply nav_link_leads, V.
  - intros ->. reflexivity.
  - intros He. unfold prev_date. rewrite (neighbours_previous _ _ _ Hn), He. reflexivity.
Qed.

Lemma neighbour_links_witness :
  nav_next (get_daily_path (mkdate 2024 1 31)) (snd (neighbours three_days 1))
  = next_enabled "../02/01.html"
  /\ nav_previous (get_daily_path (mkdate 2024 1 31)) (fst (neighbours three_days 1))
     = previous_enabled "../../2023/12/31.html".
Proof.
  assert (D : descending three_days).
  { unfold descending, three_days, date_le.
    repeat constructor. }
  destruct (neighbour_links three_days 1
              (mkday (mkdate 2024 1 31) (JArr []) ["content"; "2024-01-31.json"])
              D eq_refl) as (_ & Hn & Hp & _).
  split.
  - apply (Hn 0%nat (mkday (mkdate 2024 2 1) (JArr []) ["content"; "2024-02-01.json"])
             eq_refl eq_refl).
  - apply (Hp (mkday (mkdate 2023 12 31) (JArr []) ["content"; "2023-12-31.json"])
             eq_refl).
Defined.

(** ** The index page *)





Lemma array_sized (r : news_day) (l : list json) : content r = JArr l -> sized r.
Proof. intros H. unfold sized. rewrite H. eexists; reflexivity. Qed.








(** C6 (as stated) fails: a day whose file holds [null] has no length;
    building the index page raises [TypeError], which ends the run before
    any page is written. *)
Lemma index_not_built :
  null_days <> []
  /\ ~ index_as_claimed 2026 null_days
  /\ index_html 2026 null_days = Raise TypeError
  /\ fst (load_data null_tree) = null_days
  /\ fst (main 2026 null_tree empty_world) = Raise TypeError
  /\ ~ index_written (snd (main 2026 null_tree empty_world)).
Proof.
  split; [discriminate |].
  split; [intros (page & head & tail & H & _); discriminate H |].
  split; [reflexivity | split; [reflexivity | split; [reflexivity |]]].
  intros (h & H). exact H.
Qed.

Example index_row_text :
  index_row (mkdate 2024 3 5) 2
  = (text "
        <a href=`2024/03/05.html` class=`list-group-item list-group-item-action d-flex justify-content-between align-items-center`>
            <div>
                <h5 class=`mb-1`>2024-03-05</h5>
                <small class=`text-muted`>2 news items</small>
            </div>
            <span class=`badge bg-primary rounded-pill`>View &rarr;</span>
        </a>
        ").
Proof. reflexivity. Qed.

(** * Further properties of the loader *)

Lemma sort_desc_length (l : list news_day) : List.length (sort_desc l) = List.length l.
Proof. apply Permutation_length, sort_desc_perm. Qed.

Lemma file_accounting (root : path) (f : string * loaded) :
  (List.length (record_of root f) + List.length (lines_of root f))%nat
  = (if endswith (fst f) ".json" then 1 else 0)%nat.
Proof.
  unfold record_of, lines_of. destruct (endswith (fst f) ".json"); [| reflexivity].
  destruct (strptime_ymd (stem (fst f))); [destruct (snd f) |]; reflexivity.
Qed.

Lemma files_accounting (root : path) (files : list (string * loaded)) :
  (List.length (flat_map (record_of root) files)
   + List.length (flat_map (lines_of root) files))%nat
  = List.length (filter (fun f => endswith (fst f) ".json") files).
Proof.
  induction files as [| f files IH]; [reflexivity |].
  cbn [flat_map filter]. rewrite !length_app.
  pose proof (file_accounting root f) as A.
  destruct (endswith (fst f) ".json"); simpl; lia.
Qed.

(** X1: Each [.json] file of the tree gives either one record or one line of
    diagnostic, and the other files give neither. *)
Theorem load_data_accounting (tree : walk) :
  (List.length (fst (load_data tree)) + List.length (snd (load_data tree)))%nat
  = List.length (json_files tree).
Proof.
  rewrite load_data_spec. cbn [fst snd]. rewrite sort_desc_length.
  unfold loaded_records, diagnostics, json_files.
  induction tree as [| [root files] tree IH]; [reflexivity |].
  cbn [flat_map fst snd]. rewrite !length_app.
  pose proof (files_accounting root files). lia.
Qed.

Lemma flat_map_replace {A B} (f : A -> list B) (l1 l2 : list A) (a b : A) :
  f a = f b -> flat_map f (l1 ++ a :: l2) = flat_map f (l1 ++ b :: l2).
Proof.
  intros E. rewrite !flat_map_app. cbn [flat_map]. rewrite E. reflexivity.
Qed.

(** X2: A [.json] file whose stem is not a date is never opened: what its
    body holds, or whether it can be read, changes nothing. *)
Theorem load_data_never_opens (before after : walk) (root : path)
    (files1 files2 : list (string * loaded)) (name : string) (b1 b2 : loaded) :
  strptime_ymd (stem name) = None ->
  load_data (before ++ (root, files1 ++ (name, b1) :: files2) :: after)
  = load_data (before ++ (root, files1 ++ (name, b2) :: files2) :: after).
Proof.
  intros E. rewrite !load_data_spec.
  assert (R : record_of root (name, b1) = record_of root (name, b2)).
  { unfold record_of. cbn [fst snd]. rewrite E. reflexivity. }
  assert (L : lines_of root (name, b1) = lines_of root (name, b2)).
  { unfold lines_of. cbn [fst snd]. rewrite E. reflexivity. }
  unfold loaded_records, diagnostics. f_equal; [f_equal |].
  - apply flat_map_replace. cbn [fst snd]. apply flat_map_replace, R.
  - apply flat_map_replace. cbn [fst snd]. apply flat_map_replace, L.
Qed.

Lemma load_data_never_opens_witness :
  load_data [(["content"], [("notes.json", LoadException)])]
  = load_data [(["content"], [("notes.json", Loads (JArr []))])].
Proof.
  apply (load_data_never_opens [] [] ["content"] [] [] "notes.json"
           LoadException (Loads (JArr []))).
  reflexivity.
Defined.

Lemma date_lt_asym (a b : pydate) : date_lt a b -> date_lt b a -> False.
Proof. unfold date_lt. rewrite !date_ltb_spec. lia. Qed.

Lemma strictly_descending_unique (l1 : list news_day) :
  forall l2, strictly_descending l1 -> strictly_descending l2 ->
             Permutation l1 l2 -> l1 = l2.
Proof.
  unfold strictly_descending.
  induction l1 as [| a l1 IH]; intros l2 S1 S2 P.
  - apply Permutation_nil in P. congruence.
  - destruct l2 as [| b l2]; [apply Permutation_sym, Permutation_nil in P; discriminate |].
    inversion S1 as [| ? ? S1' F1]; subst. inversion S2 as [| ? ? S2' F2]; subst.
    rewrite Forall_forall in F1, F2.
    assert (Ha : In a (b :: l2)) by (eapply Permutation_in; [exact P | left; reflexivity]).
    assert (Hb : In b (a :: l1))
      by (eapply Permutation_in; [apply Permutation_sym, P | left; reflexivity]).
    assert (E : a = b).
    { destruct Ha as [Ha | Ha]; [congruence |].
      destruct Hb as [Hb | Hb]; [exact Hb |].
      exfalso. exact (date_lt_asym _ _ (F2 a Ha) (F1 b Hb)). }
    subst b. f_equal. apply IH; try assumption.
    eapply Permutation_cons_inv, P.
Qed.

(** X3: The dataset does not depend on the order in which directories and
    files are visited, as long as no two loaded files carry the same
    date. *)
Theorem load_data_order_independent (t1 t2 : walk) :
  Permutation (loaded_records t1) (loaded_records t2) ->
  NoDup (map date (loaded_records t1)) ->
  fst (load_data t1) = fst (load_data t2).
Proof.
  intros P N. rewrite !load_data_spec. cbn [fst].
  assert (N2 : NoDup (map date (loaded_records t2)))
    by (eapply Permutation_NoDup; [apply Permutation_map, P | exact N]).
  apply strictly_descending_unique.
  - apply descending_nodup_strict; [apply sort_desc_descending |].
    eapply Permutation_NoDup; [apply Permutation_map, Permutation_sym, sort_desc_perm | exact N].
  - apply descending_nodup_strict; [apply sort_desc_descending |].
    eapply Permutation_NoDup; [apply Permutation_map, Permutation_sym, sort_desc_perm | exact N2].
  - eapply perm_trans; [apply sort_desc_perm |].
    eapply perm_trans; [exact P | apply Permutation_sym, sort_desc_perm].
Qed.

Lemma load_data_order_independent_witness :
  fst (load_data ordered_tree) = fst (load_data reordered_tree).
Proof.
  apply (load_data_order_independent ordered_tree reordered_tree).
  - vm_compute. apply (Permutation_rev [_; _; _]).
  - vm_compute. repeat constructor; simpl; intuition discriminate.
Defined.

(** ** File names *)

Lemma list_ascii_length (a : string) :
  List.length (list_ascii_of_string a) = String.length a.
Proof.
  induction a as [| c a IH]; simpl; [reflexivity | rewrite IH; reflexivity].
Qed.

Lemma substring_all (b : string) : substring 0 (String.length b) b = b.
Proof.
  induction b as [| c b IH]; simpl; [reflexivity | rewrite IH; reflexivity].
Qed.

Lemma substring_suffix (a b : string) :
  substring (String.length a) (String.length b) (a ++ b) = b.
Proof.
  induction a as [| c a IH]; simpl; [apply substring_all | exact IH].
Qed.

Lemma substring_prefix (a b : string) :
  substring 0 (String.length a) (a ++ b) = a.
Proof.
  induction a as [| c a IH]; simpl.
  - destruct b; reflexivity.
  - rewrite IH. reflexivity.
Qed.

Lemma endswith_app (a b : string) : endswith (a ++ b) b = true.
Proof.
  unfold endswith. rewrite string_length_app.
  replace (String.length a + String.length b - String.length b)%nat
    with (String.length a) by lia.
  rewrite substring_suffix, String.eqb_refl, andb_true_r.
  apply Nat.leb_le. lia.
Qed.

Lemma rfind_dot_json (l : list ascii) :
  forall i last,
    rfind_dot (l ++ list_ascii_of_string ".json") i last = Some (i + List.length l)%nat.
Proof.
  induction l as [| c l IH]; intros i last.
  - simpl. f_equal. lia.
  - cbn [app rfind_dot List.length]. rewrite IH. f_equal. lia.
Qed.

(** The stem of [<base>.json] is [<base>]; the file named [.json] is a
    hidden file without suffix and is its own stem. *)
Lemma stem_json_name (base : string) :
  stem (base ++ ".json") = if String.eqb base "" then ".json" else base.
Proof.
  destruct (String.eqb_spec base "") as [-> | N]; [reflexivity |].
  unfold stem. rewrite list_ascii_app, rfind_dot_json, list_ascii_length.
  cbn [Nat.add]. rewrite string_length_app. cbn [String.length].
  assert (0 < String.length base)%nat by (destruct base; [congruence | simpl; lia]).
  replace (0 <? String.length base)%nat with true by (symmetry; apply Nat.ltb_lt; lia).
  replace (String.length base <? String.length base + 5 - 1)%nat with true
    by (symmetry; apply Nat.ltb_lt; lia).
  apply substring_prefix.
Qed.

Lemma year_chars (y : Z) : 1 <= y <= 9999 -> year_chars_ok y = true.
Proof.
  intros H.
  assert (A : forallb year_chars_ok (zrange 1 9999) = true) by (vm_compute; reflexivity).
  exact (forallb_zrange _ _ _ A y ltac:(lia)).
Qed.

Lemma month_chars (m : Z) : 1 <= m <= 12 -> month_chars_ok m = true.
Proof.
  intros H.
  assert (A : forallb month_chars_ok (zrange 1 12) = true) by (vm_compute; reflexivity).
  exact (forallb_zrange _ _ _ A m ltac:(lia)).
Qed.

Lemma day_chars (d : Z) : 1 <= d <= 31 -> day_chars_ok d = true.
Proof.
  intros H.
  assert (A : forallb day_chars_ok (zrange 1 31) = true) by (vm_compute; reflexivity).
  exact (forallb_zrange _ _ _ A d ltac:(lia)).
Qed.

(** The date printed as [YYYY-MM-DD] parses back to itself. *)
Lemma strptime_strftime (d : pydate) :
  valid_date d = true -> strptime_ymd (isoformat d) = Some d.
Proof.
  intros V. destruct (valid_date_bounds d V) as (Hy & Hm & Hd).
  pose proof (year_chars (year d) Hy) as Y.
  pose proof (month_chars (month d) Hm) as M.
  pose proof (day_chars (day d) Hd) as D.
  unfold year_chars_ok in Y. unfold month_chars_ok in M. unfold day_chars_ok in D.
  unfold strptime_ymd, isoformat. rewrite !list_ascii_app.
  destruct (list_ascii_of_string (zfill 4 (year d)))
    as [| y1 [| y2 [| y3 [| y4 [| ? ?]]]]]; try discriminate.
  destruct (list_ascii_of_string (zfill 2 (month d))) as [| m1 [| m2 [| ? ?]]];
    try discriminate.
  destruct (list_ascii_of_string (zfill 2 (day d))) as [| d1 [| d2 [| ? ?]]];
    try discriminate.
  apply andb_prop in Y. destruct Y as [Y1 Y2]. apply Z.eqb_eq in Y2.
  destruct (month_field [m1; m2]) as [mv |] eqn:Em; [| discriminate].
  apply andb_prop in M. destruct M as [M M3]. apply andb_prop in M. destruct M as [M1 M2].
  apply Z.eqb_eq in M1. apply negb_true_iff in M2, M3.
  destruct (day_field [d1; d2]) as [dv |] eqn:Ed; [| discriminate].
  apply Z.eqb_eq in D. subst mv dv.
  cbn [app list_ascii_of_string]. rewrite Y1. cbn [andb Ascii.eqb Bool.eqb].
  cbn [split_dash]. rewrite M2, M3. cbn [Ascii.eqb Bool.eqb].
  rewrite Em, Ed, Y2.
  destruct d as [y m dd]. cbn [year month day] in *. rewrite V. reflexivity.
Qed.

Lemma strptime_valid (s : string) (d : pydate) :
  strptime_ymd s = Some d -> valid_date d = true.
Proof.
  unfold strptime_ymd. intros H.
  repeat (break_match_in H; try discriminate).
  injection H as <-. assumption.
Qed.

(** X4: A file named after a date as [YYYY-MM-DD.json], with a body that
    parses, is loaded as the record of that date. *)
Theorem dated_file_loads (tree : walk) (root : path)
    (files : list (string * loaded)) (d : pydate) (c : json) :
  valid_date d = true ->
  In (root, files) tree ->
  In ((isoformat d ++ ".json")%string, Loads c) files ->
  In (mkday d c (root ++ [(isoformat d ++ ".json")%string]))
     (fst (load_data tree)).
Proof.
  intros V Ht Hf. rewrite load_data_spec. cbn [fst].
  eapply Permutation_in; [apply Permutation_sym, sort_desc_perm |].
  unfold loaded_records. apply in_flat_map. exists (root, files). split; [exact Ht |].
  cbn [fst snd]. apply in_flat_map.
  exists ((isoformat d ++ ".json")%string, Loads c). split; [exact Hf |].
  unfold record_of. cbn [fst snd]. rewrite endswith_app, stem_json_name.
  assert (N : String.eqb (isoformat d) "" = false).
  { apply String.eqb_neq. intros E. apply (f_equal String.length) in E.
    unfold isoformat in E. rewrite !string_length_app in E. simpl in E. lia. }
  rewrite N, (strptime_strftime d V). left. reflexivity.
Qed.

Lemma dated_file_loads_witness :
  In (mkday (mkdate 2024 2 29) (JArr []) ["content"; "2024"; "2024-02-29.json"])
     (fst (load_data [(["content"; "2024"], [("2024-02-29.json", Loads (JArr []))])])).
Proof.
  apply (dated_file_loads [(["content"; "2024"], [("2024-02-29.json", Loads (JArr []))])]
           ["content"; "2024"] [("2024-02-29.json", Loads (JArr []))]
           (mkdate 2024 2 29) (JArr [])).
  - reflexivity.
  - left. reflexivity.
  - left. reflexivity.
Defined.

(** X5: Every record of the dataset comes from a [.json] file of the tree:
    its content is what the file holds, its path is the path of the file,
    and its date, a date of the calendar, is what the stem parses to. *)
Theorem dataset_provenance (tree : walk) (r : news_day) :
  In r (fst (load_data tree)) ->
  exists root files name,
    In (root, files) tree
    /\ In (name, Loads (content r)) files
    /\ endswith name ".json" = true
    /\ strptime_ymd (stem name) = Some (date r)
    /\ valid_date (date r) = true
    /\ file_path r = root ++ [name].
Proof.
  rewrite load_data_spec. cbn [fst]. intros H.
  eapply Permutation_in in H; [| apply sort_desc_perm].
  unfold loaded_records in H. apply in_flat_map in H.
  destruct H as ([root files] & Ht & H). cbn [fst snd] in H.
  apply in_flat_map in H. destruct H as ([name body] & Hf & H).
  unfold record_of in H. cbn [fst snd] in H.
  destruct (endswith name ".json") eqn:Ej; [| destruct H].
  destruct (strptime_ymd (stem name)) as [d |] eqn:Es; [| destruct H].
  destruct body as [c | |]; simpl in H; try contradiction.
  destruct H as [<- | []]. cbn [date content file_path].
  exists root, files, name. repeat split; try assumption.
  apply (strptime_valid _ _ Es).
Qed.

Lemma dataset_provenance_witness :
  exists root files name,
    In (root, files) dup_tree
    /\ In (name, Loads (JArr [])) files
    /\ endswith name ".json" = true
    /\ strptime_ymd (stem name) = Some (mkdate 2024 1 2)
    /\ valid_date (mkdate 2024 1 2) = true
    /\ ["content"; "a"; "2024-01-02.json"] = root ++ [name].
Proof.
  apply (dataset_provenance dup_tree
           (mkday (mkdate 2024 1 2) (JArr []) ["content"; "a"; "2024-01-02.json"])).
  left. reflexivity.
Defined.

(** * Further properties of the path resolver *)

Lemma decimal_inj (n m : Z) (s : string) :
  decimal n s = true -> decimal m s = true -> n = m.
Proof.
  unfold decimal. intros H1 H2.
  apply andb_prop in H1, H2. destruct H1 as [_ H1], H2 as [_ H2].
  apply Z.eqb_eq in H1, H2. congruence.
Qed.

Lemma string_app_inv_tail (a b s : string) : (a ++ s = b ++ s)%string -> a = b.
Proof.
  intros H. apply (f_equal list_ascii_of_string) in H.
  rewrite !list_ascii_app in H. apply app_inv_tail in H.
  rewrite <- (string_of_list_ascii_of_string a), <- (string_of_list_ascii_of_string b).
  congruence.
Qed.

Lemma str_year_inj (y1 y2 : Z) :
  1 <= y1 <= 9999 -> 1 <= y2 <= 9999 -> str_int y1 = str_int y2 -> y1 = y2.
Proof.
  intros H1 H2 E. destruct (year_field y1 H1) as (D1 & _).
  destruct (year_field y2 H2) as (D2 & _). rewrite E in D1.
  exact (decimal_inj _ _ _ D1 D2).
Qed.

Lemma zfill2_inj (n m : Z) :
  1 <= n <= 31 -> 1 <= m <= 31 -> zfill 2 n = zfill 2 m -> n = m.
Proof.
  intros H1 H2 E. destruct (two_digit_fields n H1) as (D1 & _).
  destruct (two_digit_fields m H2) as (D2 & _). rewrite E in D1.
  exact (decimal_inj _ _ _ D1 D2).
Qed.

(** X6: Two dates of the calendar have the same page path only if they are
    the same date, and no daily page takes the place of the index page. *)
Theorem daily_path_injective (d1 d2 : pydate) :
  valid_date d1 = true -> valid_date d2 = true ->
  (get_daily_path d1 = get_daily_path d2 <-> d1 = d2)
  /\ get_daily_path d1 <> index_path.
Proof.
  intros V1 V2.
  destruct (valid_date_bounds d1 V1) as (Y1 & M1 & D1).
  destruct (valid_date_bounds d2 V2) as (Y2 & M2 & D2).
  split; [split |].
  - unfold get_daily_path, PUBLIC_DIR. cbn [app]. intros H.
    injection H as Hy Hm Hd.
    apply str_year_inj in Hy; [| assumption ..].
    apply zfill2_inj in Hm; [| lia ..].
    apply string_app_inv_tail, zfill2_inj in Hd; [| assumption ..].
    destruct d1, d2; cbn [year month day] in *. congruence.
  - intros ->. reflexivity.
  - discriminate.
Qed.

Lemma daily_path_injective_witness :
  get_daily_path (mkdate 2024 1 2) <> get_daily_path (mkdate 2024 1 3)
  /\ get_daily_path (mkdate 2024 11 2) <> get_daily_path (mkdate 2024 1 12)
  /\ get_daily_path (mkdate 2024 1 2) <> index_path.
Proof.
  destruct (daily_path_injective (mkdate 2024 1 2) (mkdate 2024 1 3) eq_refl eq_refl)
    as [[H _] N].
  destruct (daily_path_injective (mkdate 2024 11 2) (mkdate 2024 1 12) eq_refl eq_refl)
    as [[H' _] _].
  split; [| split; [| exact N]].
  - intros E. apply H in E. discriminate E.
  - intros E. apply H' in E. discriminate E.
Defined.

Lemma str_year_eqb (y1 y2 : Z) :
  1 <= y1 <= 9999 -> 1 <= y2 <= 9999 ->
  String.eqb (str_int y1) (str_int y2) = (y1 =? y2).
Proof.
  intros H1 H2. destruct (Z.eqb_spec y1 y2) as [-> | N].
  - apply String.eqb_refl.
  - apply String.eqb_neq. intros E. apply N. exact (str_year_inj _ _ H1 H2 E).
Qed.

Lemma zfill2_eqb (n m : Z) :
  1 <= n <= 31 -> 1 <= m <= 31 -> String.eqb (zfill 2 n) (zfill 2 m) = (n =? m).
Proof.
  intros H1 H2. destruct (Z.eqb_spec n m) as [-> | N].
  - apply String.eqb_refl.
  - apply String.eqb_neq. intros E. apply N. exact (zfill2_inj _ _ H1 H2 E).
Qed.

(** X7: The link from the page of one date to the page of another names the
    file alone within a month, goes up one level within a year, and up
    two levels otherwise. *)
Theorem relative_link_shape (d1 d2 : pydate) :
  valid_date d1 = true -> valid_date d2 = true ->
  get_relative_path (get_daily_path d1) (get_daily_path d2)
  = (if (year d2 =? year d1)%Z then
       if (month d2 =? month d1)%Z then zfill 2 (day d2) ++ ".html"
       else "../" ++ zfill 2 (month d2) ++ "/" ++ zfill 2 (day d2) ++ ".html"
     else "../../" ++ str_int (year d2) ++ "/" ++ zfill 2 (month d2) ++ "/"
          ++ zfill 2 (day d2) ++ ".html")%string.
Proof.
  intros V1 V2.
  destruct (valid_date_bounds d1 V1) as (Y1 & M1 & D1).
  destruct (valid_date_bounds d2 V2) as (Y2 & M2 & D2).
  unfold get_relative_path, relpath, parent, get_daily_path, PUBLIC_DIR.
  cbn [app removelast relpath_list String.eqb Ascii.eqb Bool.eqb].
  rewrite (str_year_eqb _ _ Y2 Y1).
  destruct (year d2 =? year d1); [| reflexivity].
  rewrite (zfill2_eqb (month d2) (month d1)) by lia.
  destruct (month d2 =? month d1); reflexivity.
Qed.

Lemma relative_link_shape_witness :
  get_relative_path (get_daily_path (mkdate 2024 1 31)) (get_daily_path (mkdate 2024 2 1))
  = "../02/01.html".
Proof.
  apply (relative_link_shape (mkdate 2024 1 31) (mkdate 2024 2 1)); reflexivity.
Defined.

(** X8: The link of the navigation bar is not the one [get_relative_path]
    gives for the index page: from the directory of a daily page the index
    page is two levels up, and the three levels of the constant lead to an
    [index.html] beside the output directory. *)
Theorem navbar_link_off_by_one (d : pydate) :
  valid_date d = true ->
  get_relative_path (get_daily_path d) index_path = "../../index.html"
  /\ (relative_root ++ "/index.html")%string = "../../../index.html"
  /\ follow (parent (get_daily_path d)) [".."; ".."; "index.html"] = index_path
  /\ follow (parent (get_daily_path d)) [".."; ".."; ".."; "index.html"] = ["index.html"]
  /\ forall now_year output_file p n sections_html,
       In (Lit (generate_navbar "../../.."))
          (daily_frame now_year d output_file p n sections_html).
Proof.
  intros V. destruct (valid_date_bounds d V) as (Hy & _).
  destruct (year_field (year d) Hy) as (Y & _).
  split; [| split; [reflexivity | split; [reflexivity | split]]].
  - unfold get_relative_path, relpath, parent, get_daily_path, index_path, PUBLIC_DIR.
    cbn [app removelast relpath_list].
    destruct (String.eqb_spec "index.html" (str_int (year d))) as [E | N];
      [| reflexivity].
    rewrite <- E in Y. discriminate Y.
  - reflexivity.
  - intros. unfold daily_frame, relative_root. simpl. tauto.
Qed.

Lemma navbar_link_off_by_one_witness :
  get_relative_path (get_daily_path (mkdate 2024 1 2)) index_path = "../../index.html"
  /\ follow (parent (get_daily_path (mkdate 2024 1 2))) [".."; ".."; ".."; "index.html"]
     = ["index.html"].
Proof.
  destruct (navbar_link_off_by_one (mkdate 2024 1 2) eq_refl) as (H1 & _ & _ & H2 & _).
  split; [exact H1 | exact H2].
Defined.

(** X9: Navigation is mutual: the "Previous Day" link of a record leads to
    the page of the record after it, whose "Next Day" link leads back. *)
Theorem navigation_mutual (data : list news_day) (i : nat) (a b : news_day) :
  nth_error data i = Some a ->
  nth_error data (S i) = Some b ->
  nav_previous (get_daily_path (date a)) (fst (neighbours data (Z.of_nat i)))
  = previous_enabled (get_relative_path (get_daily_path (date a)) (get_daily_path (date b)))
  /\ nav_next (get_daily_path (date b)) (snd (neighbours data (Z.of_nat (S i))))
     = next_enabled (get_relative_path (get_daily_path (date b)) (get_daily_path (date a)))
  /\ (valid_date (date a) = true -> valid_date (date b) = true ->
      links_to (get_daily_path (date a))
               (get_relative_path (get_daily_path (date a)) (get_daily_path (date b)))
               (date b)
      /\ links_to (get_daily_path (date b))
                  (get_relative_path (get_daily_path (date b)) (get_daily_path (date a)))
                  (date a)).
Proof.
  intros Ha Hb. split; [| split].
  - rewrite (neighbours_previous _ _ _ Ha), Hb. reflexivity.
  - rewrite neighbours_next, Ha. reflexivity.
  - intros Va Vb. split; apply nav_link_leads; assumption.
Qed.

Lemma navigation_mutual_witness :
  nav_previous (get_daily_path (mkdate 2024 2 1)) (fst (neighbours three_days 0))
  = previous_enabled "../01/31.html"
  /\ nav_next (get_daily_path (mkdate 2024 1 31)) (snd (neighbours three_days 1))
     = next_enabled "../02/01.html".
Proof.
  destruct (navigation_mutual three_days 0
              (mkday (mkdate 2024 2 1) (JArr []) ["content"; "2024-02-01.json"])
              (mkday (mkdate 2024 1 31) (JArr []) ["content"; "2024-01-31.json"])
              eq_refl eq_refl) as (H1 & H2 & _).
  split; [exact H1 | exact H2].
Defined.

(** * Further properties of a run *)

Lemma main_from_data (now_year : Z) (tree : walk) :
  main now_year tree empty_world
  = publish now_year (fst (load_data tree))
      (mkworld [PUBLIC_DIR] [] (snd (load_data tree))).
Proof. rewrite main_publish. reflexivity. Qed.

Lemma generate_index_spec (now_year : Z) (data : list news_day) (w : world) :
  generate_index now_year data w
  = match index_html now_year data with
    | Ok h =>
        (Ok tt, mkworld (ensured w) (written w ++ [(index_path, [Lit h])])
                  (stdout w ++ [Generated index_path]))
    | Raise e => (Raise e, w)
    end.
Proof.
  destruct (index_html now_year data) as [h | e] eqn:E.
  - apply generate_index_ok, E.
  - unfold generate_index, and_then, lift. rewrite E. reflexivity.
Qed.

Lemma daily_job_run (now_year : Z) (data : list news_day) (i : Z)
    (item : news_day) (w : world) :
  daily_job now_year data (i, item) w
  = match page_of now_year data i item with
    | Ok h =>
        if encodable h then
          (Ok tt,
           mkworld (ensured w ++ [parent (get_daily_path (date item))])
                   (written w ++ [(get_daily_path (date item), h)])
                   (stdout w ++ [Generated (get_daily_path (date item))]))
        else
          (Raise UnicodeEncodeError,
           mkworld (ensured w ++ [parent (get_daily_path (date item))])
                   (written w ++ [(get_daily_path (date item), [])]) (stdout w))
    | Raise e =>
        (Raise e,
         mkworld (ensured w ++ [parent (get_daily_path (date item))])
                 (written w) (stdout w))
    end.
Proof. apply daily_job_spec. Qed.

Lemma publish_loop (now_year : Z) (r : news_day) (data : list news_day) (w : world) :
  publish now_year (r :: data) w
  = (generate_index now_year (r :: data) ;;;
     for_each (enumerate (r :: data)) (daily_job now_year (r :: data))) w.
Proof.
  unfold publish, daily_job. reflexivity.
Qed.

Lemma enumerate_from_snd {A} (l : list A) :
  forall start, map snd (combine (map Z.of_nat (seq start (List.length l))) l) = l.
Proof.
  induction l as [| x l IH]; intros start; [reflexivity |].
  simpl. rewrite IH. reflexivity.
Qed.

Lemma enumerate_snd {A} (l : list A) : map snd (enumerate l) = l.
Proof. apply enumerate_from_snd. Qed.


Lemma for_each_success (now_year : Z) (data : list news_day) (l : list (Z * news_day)) :
  forall w w',
    for_each l (daily_job now_year data) w = (Ok tt, w') ->
    map fst (written w') = map fst (written w) ++ daily_paths (map snd l)
    /\ stdout w' = stdout w ++ map Generated (daily_paths (map snd l))
    /\ ensured w' = ensured w ++ map parent (daily_paths (map snd l)).
Proof.
  induction l as [| [i item] l IH]; intros w w' H.
  - injection H as <-. cbn [map daily_paths]. rewrite !app_nil_r. auto.
  - cbn [for_each] in H. unfold and_then at 1 in H. rewrite daily_job_run in H.
    destruct (page_of now_year data i item) as [h | e]; [| discriminate].
    destruct (encodable h); [| discriminate].
    apply IH in H. destruct H as (Hw & Hs & He).
    cbn [written stdout ensured] in Hw, Hs, He.
    cbn [map snd daily_paths]. fold (daily_paths (map snd l)).
    rewrite Hw, Hs, He, map_app, <- !app_assoc. auto.
Qed.




Lemma py_len_raise (v : json) (e : exn) : py_len v = Raise e -> e = TypeError.
Proof. destruct v; simpl; intros H; try discriminate; injection H as <-; reflexivity. Qed.


Lemma index_rows_unsized (recent : list news_day) :
  ~ Forall sized recent ->
  forall list_items, index_rows list_items recent = Raise TypeError.
Proof.
  induction recent as [| r recent IH]; intros N list_items.
  - exfalso. apply N. constructor.
  - cbn [index_rows]. destruct (py_len (content r)) as [n | e] eqn:E.
    + cbn [bind]. apply IH. intros F. apply N. constructor; [exists n; exact E | exact F].
    + apply py_len_raise in E. subst e. reflexivity.
Qed.


Lemma page_of_renderable (now_year : Z) (data : list news_day) (i : Z) (item : news_day) :
  (exists h, page_of now_year data i item = Ok h) <-> renderable (content item).
Proof. unfold page_of. apply daily_html_renderable. Qed.


(** The effects of a run that ends without an exception. *)
Lemma run_effects (now_year : Z) (tree : walk) (w' : world) :
  main now_year tree empty_world = (Ok tt, w') ->
  fst (load_data tree) <> [] ->
  map fst (written w') = index_path :: daily_paths (fst (load_data tree))
  /\ stdout w'
     = snd (load_data tree)
       ++ Generated index_path :: map Generated (daily_paths (fst (load_data tree)))
  /\ ensured w' = PUBLIC_DIR :: map parent (daily_paths (fst (load_data tree))).
Proof.
  rewrite main_from_data. destruct (load_data tree) as [data out]. cbn [fst snd].
  intros H N. destruct data as [| r data]; [congruence |].
  rewrite publish_loop in H. unfold and_then at 1 in H.
  rewrite generate_index_spec in H.
  destruct (index_html now_year (r :: data)) as [h | e]; [| discriminate].
  apply for_each_success in H. rewrite enumerate_snd in H.
  cbn [written stdout ensured map fst app] in H. destruct H as (Hw & Hs & He).
  rewrite Hw, Hs, He, <- app_assoc. auto.
Qed.

(** X10: A run over a non-empty dataset that ends without an exception has
    written the index page and then one page per record, in the order of
    the dataset, has reported each of them, and has ensured the output root
    and the directory of each page. *)
Theorem successful_run (now_year : Z) (tree : walk) (w' : world) :
  main now_year tree empty_world = (Ok tt, w') ->
  fst (load_data tree) <> [] ->
  map fst (written w') = index_path :: daily_paths (fst (load_data tree))
  /\ stdout w'
     = snd (load_data tree)
       ++ Generated index_path :: map Generated (daily_paths (fst (load_data tree)))
  /\ ensured w' = PUBLIC_DIR :: map parent (daily_paths (fst (load_data tree))).
Proof. apply run_effects. Qed.

Lemma successful_run_witness :
  map fst (written (snd (main 2026 good_tree empty_world)))
  = [index_path; ["public"; "2024"; "01"; "03.html"]; ["public"; "2024"; "01"; "02.html"]].
Proof.
  assert (E : main 2026 good_tree empty_world
              = (Ok tt, snd (main 2026 good_tree empty_world)))
    by (vm_compute; reflexivity).
  assert (N : fst (load_data good_tree) <> []) by (vm_compute; discriminate).
  destruct (successful_run 2026 good_tree _ E N) as (H & _).
  exact H.
Defined.






(** X13: When the content of one of the first five records has no length, the
    run raises [TypeError] while building the index page and writes
    nothing. *)
Theorem run_fails_on_index (now_year : Z) (tree : walk) :
  ~ Forall sized (firstn 5 (fst (load_data tree))) ->
  exists w',
    main now_year tree empty_world = (Raise TypeError, w')
    /\ written w' = []
    /\ stdout w' = snd (load_data tree).
Proof.
  rewrite main_from_data. destruct (load_data tree) as [data out]. cbn [fst snd].
  intros N. destruct data as [| r data]; [exfalso; apply N; constructor |].
  rewrite publish_loop. unfold and_then at 1. rewrite generate_index_spec.
  unfold index_html. rewrite (index_rows_unsized _ N ""). cbn [bind].
  eexists. split; [reflexivity | split; reflexivity].
Qed.

Lemma run_fails_on_index_witness :
  exists w',
    main 2026 ordered_tree empty_world = (Raise TypeError, w')
    /\ written w' = []
    /\ stdout w' = snd (load_data ordered_tree).
Proof.
  apply (run_fails_on_index 2026 ordered_tree).
  intros F. inversion F as [| ? ? (n & Hn) _]. discriminate Hn.
Defined.

Lemma keeps_and_then {A B} (m : run A) (k : A -> run B) :
  keeps_dirs m -> (forall a, keeps_dirs (k a)) -> keeps_dirs (and_then m k).
Proof.
  intros Hm Hk w Hw. unfold and_then. specialize (Hm w Hw).
  destruct (m w) as [[a | e] w1]; cbn [snd] in *; [apply Hk, Hm | exact Hm].
Qed.

Lemma keeps_for_each {A} (l : list A) (body : A -> run unit) :
  (forall a, keeps_dirs (body a)) -> keeps_dirs (for_each l body).
Proof.
  intros Hb. induction l as [| a l IH]; cbn [for_each].
  - intros w Hw. exact Hw.
  - apply keeps_and_then; [apply Hb | intros _; exact IH].
Qed.

Lemma keeps_generate_index (now_year : Z) (data : list news_day) :
  keeps_dirs (generate_index now_year data).
Proof.
  intros w [Hp Hw]. rewrite generate_index_spec.
  destruct (index_html now_year data) as [h | e]; cbn [snd]; [| split; assumption].
  split; cbn [ensured written]; [exact Hp |].
  intros p h' Hin. apply in_app_or in Hin. destruct Hin as [Hin | [Heq | []]].
  - eapply Hw, Hin.
  - injection Heq as <- _. exact Hp.
Qed.

Lemma keeps_daily_job (now_year : Z) (data : list news_day) (ii : Z * news_day) :
  keeps_dirs (daily_job now_year data ii).
Proof.
  destruct ii as [i item]. intros w [Hp Hw]. rewrite daily_job_run.
  destruct (page_of now_year data i item) as [h | e]; [destruct (encodable h) |];
    cbn [snd]; split;
    cbn [ensured written]; try (apply in_or_app; left; exact Hp).
  - intros p h' Hin. apply in_or_app. apply in_app_or in Hin.
    destruct Hin as [Hin | [Heq | []]].
    + left. eapply Hw, Hin.
    + injection Heq as <- _. right. left. reflexivity.
  - intros p h' Hin. apply in_or_app. apply in_app_or in Hin.
    destruct Hin as [Hin | [Heq | []]].
    + left. eapply Hw, Hin.
    + injection Heq as <- _. right. left. reflexivity.
  - intros p h' Hin. apply in_or_app. left. eapply Hw, Hin.
Qed.

(** X14: Whatever the outcome of a run, the output root has been ensured and
    every file written lies in a directory that has been ensured. *)
Theorem written_in_ensured (now_year : Z) (tree : walk) :
  dirs_ready (snd (main now_year tree empty_world)).
Proof.
  rewrite main_from_data. destruct (load_data tree) as [data out]. cbn [fst snd].
  assert (R : dirs_ready (mkworld [PUBLIC_DIR] [] out)).
  { split; cbn [ensured written]; [left; reflexivity | intros p h []]. }
  destruct data as [| r data]; [exact R |].
  rewrite publish_loop. revert R. generalize (mkworld [PUBLIC_DIR] [] out).
  apply keeps_and_then; [apply keeps_generate_index | intros _].
  apply keeps_for_each, keeps_daily_job.
Qed.

(** * Further properties of the daily page *)

Lemma existsb_eqb_in (s : string) (l : list string) :
  existsb (String.eqb s) l = true <-> In s l.
Proof.
  rewrite existsb_exists. split.
  - intros (x & Hx & E). apply String.eqb_eq in E. subst. exact Hx.
  - intros H. exists s. split; [exact H | apply String.eqb_refl].
Qed.

Lemma see_nodup (seen : list string) (s : string) : NoDup seen -> NoDup (see seen s).
Proof.
  intros N. unfold see. destruct (existsb (String.eqb s) seen) eqn:E; [exact N |].
  apply NoDup_app; [exact N | repeat constructor; intros [] |].
  intros x Hx [<- | []].
  apply existsb_eqb_in in Hx. congruence.
Qed.

Lemma first_seen_snoc (names : list string) (s : string) :
  first_seen (names ++ [s]) = see (first_seen names) s.
Proof. unfold first_seen. rewrite fold_left_app. reflexivity. Qed.

Lemma first_seen_spec (names : list string) :
  NoDup (first_seen names) /\ forall s, In s (first_seen names) <-> In s names.
Proof.
  induction names as [| x names IH] using rev_ind.
  - split; [constructor | intros s; reflexivity].
  - destruct IH as [N M]. rewrite first_seen_snoc. split; [apply see_nodup, N |].
    intros s. unfold see. rewrite in_app_iff.
    destruct (existsb (String.eqb x) (first_seen names)) eqn:E.
    + rewrite M. split; [tauto | intros [H | [<- | []]]; [exact H |]].
      apply M, existsb_eqb_in, E.
    + rewrite in_app_iff, M. reflexivity.
Qed.

Lemma filter_snoc {A} (f : A -> bool) (l : list A) (x : A) :
  filter f (l ++ [x]) = filter f l ++ (if f x then [x] else []).
Proof. rewrite filter_app. reflexivity. Qed.

Lemma filter_none {A} (f : A -> bool) (l : list A) :
  (forall x, In x l -> f x = false) -> filter f l = [].
Proof.
  induction l as [| a l IH]; intros H; [reflexivity |].
  simpl. rewrite (H a (or_introl eq_refl)). apply IH.
  intros x Hx. apply H. right. exact Hx.
Qed.

(** Filing an entry of name [s] among sections keyed by distinct names. *)
Lemma add_to_named_sections (keys : list string) (f : string -> list json)
    (s : string) (x : json) :
  NoDup keys ->
  add_to_section (map (fun t => (JStr t, f t)) keys) (JStr s) x
  = if existsb (String.eqb s) keys
    then map (fun t => (JStr t, if String.eqb s t then f t ++ [x] else f t)) keys
    else map (fun t => (JStr t, f t)) keys ++ [(JStr s, [x])].
Proof.
  induction 1 as [| t keys Ht N IH]; [reflexivity |].
  cbn [map add_to_section key_eqb existsb].
  rewrite (String.eqb_sym t s).
  destruct (String.eqb_spec s t) as [-> | Hne]; cbn [orb].
  - f_equal. apply map_ext_in. intros u Hu.
    destruct (String.eqb_spec t u) as [-> | _]; [contradiction | reflexivity].
  - rewrite IH. destruct (existsb (String.eqb s) keys); reflexivity.
Qed.

Lemma sections_of_snoc (seen : list json) (x : json) :
  add_to_section (sections_of seen) (JStr (name_of x)) x = sections_of (seen ++ [x]).
Proof.
  unfold sections_of. rewrite map_app. cbn [map]. rewrite first_seen_snoc.
  destruct (first_seen_spec (map name_of seen)) as [N M].
  rewrite (add_to_named_sections _ (fun s => filter (in_section s) seen) _ _ N).
  unfold see. destruct (existsb (String.eqb (name_of x)) (first_seen (map name_of seen)))
    eqn:E.
  - apply map_ext. intros t. rewrite filter_snoc.
    change (in_section t x) with (String.eqb (name_of x) t).
    destruct (String.eqb (name_of x) t); [reflexivity | rewrite app_nil_r; reflexivity].
  - rewrite map_app. cbn [map]. f_equal.
    + apply map_ext_in. intros t Ht. rewrite filter_snoc.
      change (in_section t x) with (String.eqb (name_of x) t).
      destruct (String.eqb_spec (name_of x) t) as [<- | _];
        [| rewrite app_nil_r; reflexivity].
      apply existsb_eqb_in in Ht. congruence.
    + rewrite filter_snoc.
      change (in_section (name_of x) x) with (String.eqb (name_of x) (name_of x)).
      rewrite String.eqb_refl.
      rewrite filter_none; [reflexivity |].
      intros e He. unfold in_section. apply String.eqb_neq. intros Heq.
      assert (In (name_of x) (first_seen (map name_of seen)))
        by (apply M; rewrite <- Heq; apply in_map, He).
      apply existsb_eqb_in in H. congruence.
Qed.

Lemma group_entries_named (rest : list json) :
  Forall named_entry rest ->
  forall seen, group_entries (sections_of seen) rest = Ok (sections_of (seen ++ rest)).
Proof.
  induction 1 as [| x rest (kv & s & -> & Hs) _ IH]; intros seen.
  - rewrite app_nil_r. reflexivity.
  - cbn [group_entries]. unfold group_step. cbn [py_get bind].
    fold (section_of kv). rewrite Hs. cbn [hashable bind].
    replace (JStr s) with (JStr (name_of (JObj kv)))
      by (unfold name_of; rewrite Hs; reflexivity).
    rewrite sections_of_snoc, IH, <- app_assoc. reflexivity.
Qed.

Lemma named_is_dict (e : json) : named_entry e -> item_html e = Ok (entry_card e).
Proof. intros (kv & s & -> & _). reflexivity. Qed.

(** X15: Items whose sections are named by strings are grouped by name: the
    sections come in the order their names first occur, an item without
    the key going with the items named ["Uncategorized"], and each section
    shows its items in the order of the file. *)
Theorem daily_page_of_named_entries (now_year : Z) (d : pydate)
    (entries : list json) (output_file : path) (p n : option pydate) :
  Forall named_entry entries ->
  group_by_section (JArr entries) = Ok (sections_of entries)
  /\ daily_html now_year d (JArr entries) output_file p n
     = Ok (daily_frame now_year d output_file p n
             (List.concat (map section_html (sections_of entries)))).
Proof.
  intros F.
  assert (G : group_by_section (JArr entries) = Ok (sections_of entries)).
  { unfold group_by_section. cbn [py_iter bind].
    exact (group_entries_named entries F []). }
  split; [exact G |].
  unfold daily_html. rewrite G. cbn [bind].
  rewrite (mapM_map _ section_html); [reflexivity |].
  intros [k es] Hin. cbn [fst snd]. unfold generate_section_html, section_html.
  rewrite (mapM_map _ entry_card); [reflexivity |].
  intros e He. apply named_is_dict. rewrite Forall_forall in F. apply F.
  unfold sections_of in Hin. apply in_map_iff in Hin.
  destruct Hin as (s & Heq & _). injection Heq as <- <-.
  apply filter_In in He. tauto.
Qed.

Lemma daily_page_of_named_entries_witness :
  group_by_section (JArr mixed_entries)
  = Ok [(JStr "AI", [JObj [("版块", JStr "AI"); ("标题", JStr "a")];
                     JObj [("版块", JStr "AI"); ("标题", JStr "c")]]);
        (JStr "Uncategorized",
         [JObj [("标题", JStr "b")];
          JObj [("版块", JStr "Uncategorized"); ("标题", JStr "d")]])].
Proof.
  assert (F : Forall named_entry mixed_entries).
  { repeat constructor; eexists _, _; split; reflexivity. }
  destruct (daily_page_of_named_entries 2026 (mkdate 2024 1 2) mixed_entries
              (get_daily_path (mkdate 2024 1 2)) None None F) as (G & _).
  exact G.
Defined.

Lemma subseq_nil_l {A} (l : list A) : subseq [] l.
Proof. induction l; constructor; assumption. Qed.

Lemma subseq_snoc_skip {A} (l1 l2 : list A) (x : A) :
  subseq l1 l2 -> subseq l1 (l2 ++ [x]).
Proof.
  induction 1; cbn [app].
  - apply subseq_skip, subseq_nil.
  - apply subseq_skip. assumption.
  - apply subseq_take. assumption.
Qed.

Lemma subseq_snoc_take {A} (l1 l2 : list A) (x : A) :
  subseq l1 l2 -> subseq (l1 ++ [x]) (l2 ++ [x]).
Proof.
  induction 1; cbn [app].
  - apply subseq_take, subseq_nil.
  - apply subseq_skip. assumption.
  - apply subseq_take. assumption.
Qed.

Lemma add_to_section_perm (S : list (json * list json)) (s x : json) :
  Permutation (List.concat (map snd (add_to_section S s x)))
              (List.concat (map snd S) ++ [x]).
Proof.
  induction S as [| [k es] S IH]; cbn [add_to_section map snd List.concat].
  - apply Permutation_refl.
  - destruct (key_eqb k s); cbn [map snd List.concat].
    + rewrite <- !app_assoc. apply Permutation_app_head, Permutation_app_comm.
    + rewrite <- app_assoc. apply Permutation_app_head, IH.
Qed.

Lemma add_to_section_groups (S : list (json * list json)) (s x : json)
    (seen : list json) :
  Forall (fun g => snd g <> [] /\ subseq (snd g) seen) S ->
  Forall (fun g => snd g <> [] /\ subseq (snd g) (seen ++ [x])) (add_to_section S s x).
Proof.
  induction 1 as [| [k es] S [Hn Hs] F IH]; cbn [add_to_section].
  - constructor; [| constructor]. cbn [snd]. split; [discriminate |].
    apply (subseq_snoc_take [] seen x), subseq_nil_l.
  - cbn [snd] in Hn, Hs. destruct (key_eqb k s).
    + constructor.
      * cbn [snd]. split; [destruct es; discriminate | apply subseq_snoc_take, Hs].
      * eapply Forall_impl; [| exact F]. intros g [Hg1 Hg2].
        split; [exact Hg1 | apply subseq_snoc_skip, Hg2].
    + constructor; [| exact IH]. cbn [snd].
      split; [exact Hn | apply subseq_snoc_skip, Hs].
Qed.

Lemma group_entries_filed (rest : list json) :
  forall S S' seen,
    filed S seen -> group_entries S rest = Ok S' -> filed S' (seen ++ rest).
Proof.
  induction rest as [| x rest IH]; intros S S' seen F H.
  - injection H as <-. rewrite app_nil_r. exact F.
  - cbn [group_entries] in H. apply bind_ok in H. destruct H as (S1 & H1 & H).
    apply group_step_ok in H1. destruct H1 as (kv & -> & _ & ->).
    replace (seen ++ JObj kv :: rest) with ((seen ++ [JObj kv]) ++ rest)
      by (rewrite <- app_assoc; reflexivity).
    eapply IH; [| exact H]. destruct F as [P G]. split.
    + eapply perm_trans; [apply add_to_section_perm |].
      apply Permutation_app_tail, P.
    + apply add_to_section_groups, G.
Qed.

(** X16: Whatever the section values, grouping files every entry in exactly
    one section, leaves no section empty and keeps, within each section,
    the order of the entries. *)
Theorem grouping_keeps_entries (content : json) (entries : list json)
    (S : list (json * list json)) :
  py_iter content = Ok entries ->
  group_by_section content = Ok S ->
  filed S entries.
Proof.
  intros Hi H. unfold group_by_section in H. rewrite Hi in H. cbn [bind] in H.
  apply (group_entries_filed entries [] S []); [| exact H].
  split; [constructor | constructor].
Qed.

Lemma grouping_keeps_entries_witness :
  filed [(JBool true, [JObj [("版块", JBool true)]; JObj [("版块", JInt 1)]]);
         (JNull, [JObj [("版块", JNull)]])]
        typed_entries.
Proof.
  apply (grouping_keeps_entries (JArr typed_entries)); reflexivity.
Defined.

(** * Links between the pages of a run *)

Lemma date_at_in (data : list news_day) (k : Z) (d : pydate) :
  date_at data k = Some d -> exists r, In r data /\ date r = d.
Proof.
  unfold date_at. destruct (nth_error data (Z.to_nat k)) as [r |] eqn:E; [| discriminate].
  intros [= <-]. exists r. split; [eapply nth_error_In, E | reflexivity].
Qed.

Lemma neighbours_in_data (data : list news_day) (i : Z) (d : pydate) :
  fst (neighbours data i) = Some d \/ snd (neighbours data i) = Some d ->
  exists r, In r data /\ date r = d.
Proof.
  unfold neighbours. cbn [fst snd]. intros [H | H].
  - destruct (i <? Z.of_nat (List.length data) - 1); [| discriminate].
    eapply date_at_in, H.
  - destruct (0 <? i); [| discriminate]. eapply date_at_in, H.
Qed.

(** X18: In a run that ends without an exception no link dangles: the pages
    that the "Next Day" and "Previous Day" links of a record point to, the
    page of the record itself, to which its row of the index points, and
    the index page are all among the files written. *)
Theorem links_not_dangling (now_year : Z) (tree : walk) (w' : world)
    (i : nat) (item : news_day) :
  main now_year tree empty_world = (Ok tt, w') ->
  nth_error (fst (load_data tree)) i = Some item ->
  (forall d,
     fst (neighbours (fst (load_data tree)) (Z.of_nat i)) = Some d
     \/ snd (neighbours (fst (load_data tree)) (Z.of_nat i)) = Some d ->
     In (get_daily_path d) (map fst (written w')))
  /\ In (get_daily_path (date item)) (map fst (written w'))
  /\ In index_path (map fst (written w')).
Proof.
  intros H Hn.
  assert (N : fst (load_data tree) <> []) by (intros E; rewrite E in Hn; destruct i; discriminate).
  destruct (run_effects now_year tree w' H N) as (Hw & _). rewrite Hw.
  assert (P : forall r, In r (fst (load_data tree)) ->
                In (get_daily_path (date r)) (index_path :: daily_paths (fst (load_data tree)))).
  { intros r Hr. right. unfold daily_paths.
    apply (in_map (fun r => get_daily_path (date r))), Hr. }
  split; [| split].
  - intros d Hd. destruct (neighbours_in_data _ _ _ Hd) as (r & Hr & <-). apply P, Hr.
  - apply P. eapply nth_error_In, Hn.
  - left. reflexivity.
Qed.

Lemma links_not_dangling_witness :
  In (get_daily_path (mkdate 2024 1 2))
     (map fst (written (snd (main 2026 good_tree empty_world))))
  /\ In index_path (map fst (written (snd (main 2026 good_tree empty_world)))).
Proof.
  assert (E : main 2026 good_tree empty_world
              = (Ok tt, snd (main 2026 good_tree empty_world)))
    by (vm_compute; reflexivity).
  destruct (links_not_dangling 2026 good_tree _ 0
              (mkday (mkdate 2024 1 3) (JArr []) ["content"; "2024-01-03.json"])
              E eq_refl) as (Hl & _ & Hi).
  split; [| exact Hi].
  apply Hl. left. reflexivity.
Defined.
